(** * Notification worker: template renderer, delivery executor, dead-letter
    escalation and the consumer callback

    A shallow embedding of package [worker] (the consumer side of the
    notification system) together with the parts of package [config] it
    calls.  The renderer is pure; the executor, the escalator and the
    callback run in a small state monad whose state is the outside world
    (HTTP endpoint, broker) plus the trace of effects performed so far.
    Logging is left out. *)

From Stdlib Require Import ZArith Ascii String.
From stdpp Require Import gmap strings list fin_maps.

Set Warnings "-register-all".
Local Open Scope string_scope.
Local Open Scope list_scope.
Local Open Scope Z_scope.

(** ** Go's [strings] package, as far as [resolveValue] uses it *)

Module strings.

(** [strings.HasPrefix(s, prefix)]. *)
Definition HasPrefix (s prefix : string) : bool := String.prefix prefix s.

(** [strings.HasSuffix(s, suffix)]:
    [len(s) >= len(suffix) && s[len(s)-len(suffix):] == suffix]. *)
Definition HasSuffix (s suffix : string) : bool :=
  (String.length suffix <=? String.length s)%nat &&
  String.eqb
    (substring (String.length s - String.length suffix)
               (String.length suffix) s)
    suffix.

(** [strings.Split(s, sep)] for a one-byte separator: the pieces of [s]
    between the occurrences of [sep]; one piece more than there are
    separators, so never the empty list. *)
Fixpoint Split (s : string) (sep : ascii) : list string :=
  match s with
  | EmptyString => [EmptyString]
  | String c rest =>
      if Ascii.eqb c sep then EmptyString :: Split rest sep
      else match Split rest sep with
           | piece :: pieces => String c piece :: pieces
           | [] => [String c EmptyString]
           end
  end.

(** The slice expression [s[lo:hi]], for [lo <= hi <= len(s)]. *)
Definition slice (s : string) (lo hi : nat) : string :=
  substring lo (hi - lo) s.

End strings.

(** ** JSON values: what [encoding/json] decodes into [interface{}] *)

(** [nil], [bool], [float64], [string], [[]interface{}] and
    [map[string]interface{}].  The renderer never looks inside a number, so
    the [float64] is carried as the integer of its bit pattern. *)
Inductive Value : Type :=
| VNull
| VBool (b : bool)
| VNumber (bits : Z)
| VString (s : string)
| VArray (elems : list Value)
| VObject (fields : gmap string Value).

(** The dynamic type a [switch v.(type)] sees. *)
Inductive Kind := KNull | KBool | KNumber | KString | KArray | KObject.

Definition kind_of (v : Value) : Kind :=
  match v with
  | VNull => KNull
  | VBool _ => KBool
  | VNumber _ => KNumber
  | VString _ => KString
  | VArray _ => KArray
  | VObject _ => KObject
  end.

(** ** Package [event] *)

Module event.

(** Modelled from the spec: the declaration of [event.Event] is not among
    the sources; the worker reads its fields [ID], [Type] and [Data], and
    the data model gives [{id, type, timestamp, data}]. *)
Record Event := {
  ID : string;
  Typ : string;
  Timestamp : string;
  Data : gmap string Value
}.

End event.

(** ** The template renderer *)

Section Renderer.

Variable evt : event.Event.

(** [resolveValue]: a string of the form of a placeholder is cut to its
    path, the path is split at the dots, and a path of the three parts
    [$], [event], [key] is looked up in the event's data. *)
Definition resolveValue (val : string) : Value :=
  if strings.HasPrefix val "{$.event." && strings.HasSuffix val "}" then
    let path := strings.slice val 2 (String.length val - 1) in
    let parts := strings.Split path "."%char in
    match parts with
    | [p0; p1; key] =>
        if String.eqb p0 "$" && String.eqb p1 "event" then
          match event.Data evt !! key with
          | Some v => v
          | None => VString val
          end
        else VString val
    | _ => VString val
    end
  else VString val.

(** [replacePlaceholders]: the type switch over the template. *)
Fixpoint replacePlaceholders (v : Value) : Value :=
  match v with
  | VString val => resolveValue val
  | VObject val => VObject (replacePlaceholders <$> val)
  | VArray val => VArray (replacePlaceholders <$> val)
  | _ => v
  end.

End Renderer.

(** ** Package [config] *)

Module config.

Record NotificationConfig := {
  EventType : string;
  QueueName : string;
  Method : string;
  URL : string;
  Headers : gmap string string;
  Body : gmap string Value
}.

Record MQConfig := {
  NameServer : string;
  AccessKey : string;
  SecretKey : string;
  GroupName : string;
  MaxRetries : Z
}.

Record Config := {
  MQ : MQConfig;
  Notifications : list NotificationConfig
}.

(** [FindNotificationConfig]: the first rule whose event type is the one
    asked for, [None] for the [nil] pointer. *)
Fixpoint find_rule (rules : list NotificationConfig) (eventType : string)
  : option NotificationConfig :=
  match rules with
  | [] => None
  | n :: rest =>
      if String.eqb (EventType n) eventType then Some n
      else find_rule rest eventType
  end.

Definition FindNotificationConfig (c : Config) (eventType : string)
  : option NotificationConfig :=
  find_rule (Notifications c) eventType.

End config.

(** ** The broker client's message types and dispositions *)

Module primitive.

Record Message := {
  Topic : string;
  Body : list Byte.byte;
  Properties : gmap string string
}.

(** [MessageExt] embeds [Message]; [ReconsumeTimes] is an [int32]. *)
Record MessageExt := {
  Msg : Message;
  MsgId : string;
  ReconsumeTimes : Z
}.

End primitive.

Module consumer.

Inductive ConsumeResult := ConsumeSuccess | ConsumeRetryLater.

End consumer.

(** ** The outside world *)

(** An outbound HTTP request as [processNotification] builds it. *)
Record Request := {
  ReqMethod : string;
  ReqURL : string;
  ReqHeader : gmap string string;
  ReqBody : list Byte.byte
}.

(** What [Client.Do] gives back: a transport error, or a response of which
    the worker reads the status code and the body. *)
Inductive HttpResult :=
  | TransportError (cause : string)
  | Response (StatusCode : Z) (body : string).

(** The errors [processNotification] returns, one constructor per
    [fmt.Errorf] (and [nil] is [None]). *)
Inductive error :=
  | RenderError
  | CreateRequestError
  | NetworkError (cause : string)
  | ClientStatusError (status : Z) (body : string)
  | StatusError (status : Z) (body : string).

(** The effects a run leaves behind, oldest first. *)
Inductive Effect :=
  | Slept (d : Z)
  | HttpDone (req : Request) (res : HttpResult)
  | DLQSent (m : primitive.Message) (err : option string).

(** The collaborators the worker is linked against: the HTTP client, the
    dead-letter producer, [encoding/json] at the two types used, and the
    validation [http.NewRequest] does on method and URL.  [Env] is whatever
    state the endpoint and the broker keep. *)
Class Collaborators (Env : Type) := {
  client_Do : Request → Env → HttpResult * Env;
  producer_SendSync : primitive.Message → Env → option string * Env;
  json_Unmarshal : list Byte.byte → option event.Event;
  json_Marshal : Value → option (list Byte.byte);
  request_ok : string → string → bool
}.

Record World (Env : Type) := mkWorld {
  env : Env;
  trace : list Effect
}.
Arguments mkWorld {Env} _ _.
Arguments env {Env} _.
Arguments trace {Env} _.

(** Computations that return an [A] and change the world. *)
Definition M (Env A : Type) : Type := World Env → A * World Env.

Definition ret {Env A} (a : A) : M Env A := λ w, (a, w).

Definition bind {Env A B} (k : A → M Env B) (m : M Env A) : M Env B :=
  λ w, let (a, w') := m w in k a w'.

#[global] Instance M_ret {Env} : MRet (M Env) := @ret Env.
#[global] Instance M_bind {Env} : MBind (M Env) := @bind Env.

(** [time.Duration] counts nanoseconds in an [int64]. *)
Definition Millisecond : Z := 1000000.

Definition wrap64 (z : Z) : Z := (z + 2 ^ 63) mod 2 ^ 64 - 2 ^ 63.

(** The two status guards of [processNotification]:
    [resp.StatusCode >= 200 && resp.StatusCode < 300] and
    [resp.StatusCode >= 400 && resp.StatusCode < 500 && resp.StatusCode != 429]. *)
Definition is2xx (status : Z) : bool := (200 <=? status) && (status <? 300).

Definition isClientError (status : Z) : bool :=
  (400 <=? status) && (status <? 500) && negb (status =? 429).

Section Worker.

Context {Env : Type} `{!Collaborators Env}.

(** The worker's configuration ([w.Config]). *)
Variable cfg : config.Config.

Definition Sleep (d : Z) : M Env unit :=
  λ w, (tt, mkWorld (env w) (trace w ++ [Slept d])).

Definition Do (req : Request) : M Env HttpResult :=
  λ w, let (res, e) := client_Do req (env w) in
       (res, mkWorld e (trace w ++ [HttpDone req res])).

Definition SendSync (m : primitive.Message) : M Env (option string) :=
  λ w, let (err, e) := producer_SendSync m (env w) in
       (err, mkWorld e (trace w ++ [DLQSent m err])).

(** The request after [http.NewRequest] and the loop over [cfg.Headers]
    that sets each header of the rule on it: method, URL and headers of the
    rule, and the rendered body. *)
Definition buildRequest (n : config.NotificationConfig)
    (reqBody : list Byte.byte) : Request :=
  {| ReqMethod := config.Method n; ReqURL := config.URL n;
     ReqHeader := config.Headers n; ReqBody := reqBody |}.

Definition NewRequest (n : config.NotificationConfig)
    (reqBody : list Byte.byte) : option Request :=
  if request_ok (config.Method n) (config.URL n)
  then Some (buildRequest n reqBody) else None.

(** [renderBody]. *)
Definition renderBody (templateBody : gmap string Value) (evt : event.Event)
  : option (list Byte.byte) :=
  json_Marshal (replacePlaceholders evt (VObject templateBody)).

Definition maxLocalRetries : nat := 3.

(** [time.Duration(math.Pow(2, float64(i))) * 100 * time.Millisecond]:
    the power of two is exact in a [float64] for the indices the loop
    reaches, and the two products are taken in [int64]. *)
Definition backoff (i : Z) : Z := wrap64 (wrap64 (2 ^ i * 100) * Millisecond).

(** The retry loop of [processNotification]: [remaining] is
    [maxLocalRetries - i], the number of iterations still to run. *)
Fixpoint attempts (n : config.NotificationConfig) (reqBody : list Byte.byte)
    (remaining : nat) (i : Z) (lastErr : option error)
  : M Env (option error) :=
  match remaining with
  | O => ret lastErr
  | S remaining' =>
      (if 0 <? i then Sleep (backoff i) else ret tt) ;;
      match NewRequest n reqBody with
      | None => ret (Some CreateRequestError)
      | Some req =>
          res ← Do req;
          match res with
          | TransportError cause =>
              attempts n reqBody remaining' (i + 1) (Some (NetworkError cause))
          | Response status body =>
              if is2xx status then ret None
              else if isClientError status
              then ret (Some (ClientStatusError status body))
              else attempts n reqBody remaining' (i + 1)
                     (Some (StatusError status body))
          end
      end
  end.

Definition processNotification (n : config.NotificationConfig)
    (evt : event.Event) : M Env (option error) :=
  match renderBody (config.Body n) evt with
  | None => ret (Some RenderError)
  | Some reqBody => attempts n reqBody maxLocalRetries 0 None
  end.

(** [sendToDLQ]. *)
Definition dlqMessage (msg : primitive.MessageExt) : primitive.Message :=
  {| primitive.Topic := String.append "DLQ_" (primitive.Topic (primitive.Msg msg));
     primitive.Body := primitive.Body (primitive.Msg msg);
     primitive.Properties := primitive.Properties (primitive.Msg msg) |}.

Definition sendToDLQ (msg : primitive.MessageExt) : M Env (option string) :=
  SendSync (dlqMessage msg).

(** [HandleMessage]: the callback; the second component is the [error] it
    returns next to the disposition. *)
Fixpoint HandleMessage (msgs : list primitive.MessageExt)
  : M Env (consumer.ConsumeResult * option error) :=
  match msgs with
  | [] => ret (consumer.ConsumeSuccess, None)
  | msg :: rest =>
      if config.MaxRetries (config.MQ cfg) <=? primitive.ReconsumeTimes msg
      then
        err ← sendToDLQ msg;
        match err with
        | Some _ => ret (consumer.ConsumeRetryLater, None)
        | None => ret (consumer.ConsumeSuccess, None)
        end
      else
        match json_Unmarshal (primitive.Body (primitive.Msg msg)) with
        | None => ret (consumer.ConsumeSuccess, None)
        | Some evt =>
            match config.FindNotificationConfig cfg (event.Typ evt) with
            | None => ret (consumer.ConsumeSuccess, None)
            | Some notifyConfig =>
                err ← processNotification notifyConfig evt;
                match err with
                | Some _ => ret (consumer.ConsumeRetryLater, None)
                | None => HandleMessage rest
                end
            end
        end
  end.

End Worker.

(** ** Reading a run: the vocabulary of the statements below *)

(** The effects a run added to the trace it started from. *)
Definition new_effects {Env} (w w' : World Env) : list Effect :=
  drop (length (trace w)) (trace w').

Definition is_http (e : Effect) : bool :=
  match e with HttpDone _ _ => true | _ => false end.

Definition is_dlq (e : Effect) : bool :=
  match e with DLQSent _ _ => true | _ => false end.

Definition http_calls (t : list Effect) : nat :=
  length (List.filter is_http t).

Definition dlq_sends (t : list Effect) : nat :=
  length (List.filter is_dlq t).

(** What one attempt means for the loop: the request was delivered, failed
    for good, or failed with an error to remember while trying again. *)
Inductive Verdict := Delivered | Fatal (e : error) | Again (e : error).

Definition verdict (res : HttpResult) : Verdict :=
  match res with
  | TransportError cause => Again (NetworkError cause)
  | Response status body =>
      if is2xx status then Delivered
      else if isClientError status then Fatal (ClientStatusError status body)
      else Again (StatusError status body)
  end.

Definition is_again (res : HttpResult) : bool :=
  match verdict res with Again _ => true | _ => false end.

(** The error an attempt records when the loop goes on after it. *)
Definition recorded (res : HttpResult) : error :=
  match res with
  | TransportError cause => NetworkError cause
  | Response status body => StatusError status body
  end.

(** The sleep that opens iteration [i] of the loop, if any. *)
Definition pause (i : Z) : list Effect :=
  if 0 <? i then [Slept (backoff i)] else [].

(** The effects of attempts number [i], [i+1], ... (counted from 0) that
    got the given results. *)
Fixpoint ladder (req : Request) (i : Z) (results : list HttpResult)
  : list Effect :=
  match results with
  | [] => []
  | r :: rs => pause i ++ HttpDone req r :: ladder req (i + 1) rs
  end.

(** What the loop returns after attempts with the given results. *)
Fixpoint outcome (lastErr : option error) (results : list HttpResult)
  : option error :=
  match results with
  | [] => lastErr
  | r :: rs =>
      match verdict r with
      | Delivered => None
      | Fatal e => Some e
      | Again e => outcome (Some e) rs
      end
  end.

(** Every attempt but the last one asked for another attempt. *)
Fixpoint goes_on (results : list HttpResult) : bool :=
  match results with
  | [] => true
  | [_] => true
  | r :: rs => is_again r && goes_on rs
  end.


(** The terminal statuses as the specification lists them. *)
Definition spec_terminal (status : Z) : bool :=
  bool_decide (status ∈ [400; 401; 403; 404]).

(** The handler's state machine for one message in the words of the
    specification, over the answers to its four questions. *)
Inductive Disposition := Acknowledge | RetryLater.

Definition spec_disposition
    (exhausted escalated decoded routed delivered : bool) : Disposition :=
  if exhausted then (if escalated then Acknowledge else RetryLater)
  else if negb decoded then Acknowledge
  else if negb routed then Acknowledge
  else if delivered then Acknowledge
  else RetryLater.

(** [err == nil]. *)
Definition is_nil {A} (err : option A) : bool :=
  match err with None => true | Some _ => false end.

Definition disposition_of (r : consumer.ConsumeResult) : Disposition :=
  match r with
  | consumer.ConsumeSuccess => Acknowledge
  | consumer.ConsumeRetryLater => RetryLater
  end.

(** ** A scripted world to run the worker in *)

(** The endpoint answers the calls with the results of a script, one after
    the other, and refuses the connection when the script is used up; the
    broker accepts dead letters or not, as the flag says. *)
Definition Scripted : Type := list HttpResult * bool.

Definition scripted_Do (_ : Request) (e : Scripted) : HttpResult * Scripted :=
  match e.1 with
  | [] => (TransportError "connection refused", e)
  | r :: rs => (r, (rs, e.2))
  end.

Definition scripted_SendSync (_ : primitive.Message) (e : Scripted)
  : option string * Scripted :=
  (if e.2 then None else Some "broker unavailable", e).

Definition sample_data : gmap string Value :=
  {[ "user_id" := VString "42"; "amount" := VNumber 100 ]}.

(** A stand-in for the decoder: a body that opens with a brace decodes to
    an event whose type is spelled by the rest of the body, anything else
    is malformed. *)
Definition scripted_Unmarshal (body : list Byte.byte) : option event.Event :=
  match body with
  | Byte.x7b :: rest =>
      Some {| event.ID := "evt-1"; event.Typ := string_of_list_byte rest;
              event.Timestamp := "2023-10-27T10:00:00Z";
              event.Data := sample_data |}
  | _ => None
  end.

#[global] Instance scripted : Collaborators Scripted := {|
  client_Do := scripted_Do;
  producer_SendSync := scripted_SendSync;
  json_Unmarshal := scripted_Unmarshal;
  json_Marshal := λ _, Some [];
  request_ok := λ _ _, true
|}.

Definition sample_rule : config.NotificationConfig := {|
  config.EventType := "registration";
  config.QueueName := "registration_queue";
  config.Method := "POST";
  config.URL := "https://httpbin.org/post";
  config.Headers := {[ "Content-Type" := "application/json" ]};
  config.Body := {[ "user_id" := VString "{$.event.user_id}";
                    "source" := VString "internal_api" ]}
|}.

Definition sample_config : config.Config := {|
  config.MQ := {| config.NameServer := "127.0.0.1:9876";
                  config.AccessKey := ""; config.SecretKey := "";
                  config.GroupName := "notification_consumer_group";
                  config.MaxRetries := 16 |};
  config.Notifications := [sample_rule]
|}.

Definition sample_event : event.Event := {|
  event.ID := "evt-1"; event.Typ := "registration";
  event.Timestamp := "2023-10-27T10:00:00Z"; event.Data := sample_data
|}.

Definition sample_request : Request := {|
  ReqMethod := "POST"; ReqURL := "https://httpbin.org/post";
  ReqHeader := {[ "Content-Type" := "application/json" ]}; ReqBody := []
|}.

Definition message (topic : string) (body : string) (reconsumed : Z)
  : primitive.MessageExt := {|
  primitive.Msg := {| primitive.Topic := topic;
                      primitive.Body := list_byte_of_string body;
                      primitive.Properties := {[ "TRACE_ID" := "t-7" ]} |};
  primitive.MsgId := "msg-1";
  primitive.ReconsumeTimes := reconsumed
|}.

Definition world (script : list HttpResult) (dlq_up : bool) : World Scripted :=
  mkWorld (script, dlq_up) [].

(** ** The rest of package [config]: validation and loading *)

(** The errors of [Validate], one constructor per [fmt.Errorf]; [i] is the
    index of the rule in [notifications]. *)
Inductive ConfigError :=
  | NameServerRequired
  | GroupNameRequired
  | MaxRetriesNegative
  | NoNotifications
  | EventTypeRequired (i : nat)
  | QueueNameRequired (i : nat)
  | MethodRequired (i : nat)
  | MethodInvalid (i : nat) (method : string)
  | URLRequired (i : nat)
  | URLInvalid (i : nat) (url : string).

(** The index a rule error carries. *)
Definition error_index (e : ConfigError) : option nat :=
  match e with
  | EventTypeRequired i | QueueNameRequired i | MethodRequired i
  | MethodInvalid i _ | URLRequired i | URLInvalid i _ => Some i
  | _ => None
  end.

(** The map literal of [Validate]. *)
Definition validMethods : gmap string bool :=
  {[ "GET" := true; "POST" := true; "PUT" := true; "DELETE" := true;
     "PATCH" := true ]}.

(** Why [LoadConfig] returned no configuration. *)
Inductive LoadError :=
  | OpenFailed
  | MalformedConfig
  | Invalid (e : ConfigError).

Section Validation.

(** [strings.ToUpper] and the verdict of [url.ParseRequestURI], from the
    Go library. *)
Variable ToUpper : string → string.
Variable ParseRequestURI_ok : string → bool.

(** The checks of one iteration of the loop over the rules. *)
Definition check_rule (i : nat) (n : config.NotificationConfig)
  : option ConfigError :=
  if String.eqb (config.EventType n) "" then Some (EventTypeRequired i)
  else if String.eqb (config.QueueName n) "" then Some (QueueNameRequired i)
  else if String.eqb (config.Method n) "" then Some (MethodRequired i)
  else if negb (default false (validMethods !! ToUpper (config.Method n)))
  then Some (MethodInvalid i (config.Method n))
  else if String.eqb (config.URL n) "" then Some (URLRequired i)
  else if negb (ParseRequestURI_ok (config.URL n))
  then Some (URLInvalid i (config.URL n))
  else None.

Fixpoint check_rules (i : nat) (rules : list config.NotificationConfig)
  : option ConfigError :=
  match rules with
  | [] => None
  | n :: rest =>
      match check_rule i n with
      | Some e => Some e
      | None => check_rules (S i) rest
      end
  end.

(** [c.MQ.MaxRetries = 16]. *)
Definition with_default_retries (c : config.Config) : config.Config :=
  {| config.MQ :=
       {| config.NameServer := config.NameServer (config.MQ c);
          config.AccessKey := config.AccessKey (config.MQ c);
          config.SecretKey := config.SecretKey (config.MQ c);
          config.GroupName := config.GroupName (config.MQ c);
          config.MaxRetries := 16 |};
     config.Notifications := config.Notifications c |}.

(** [Validate]: the error, and the configuration as the method leaves it
    behind the pointer. *)
Definition Validate (c : config.Config) : option ConfigError * config.Config :=
  if String.eqb (config.NameServer (config.MQ c)) ""
  then (Some NameServerRequired, c)
  else if String.eqb (config.GroupName (config.MQ c)) ""
  then (Some GroupNameRequired, c)
  else if config.MaxRetries (config.MQ c) <? 0
  then (Some MaxRetriesNegative, c)
  else
    let c' := if config.MaxRetries (config.MQ c) =? 0
              then with_default_retries c else c in
    if (length (config.Notifications c') =? 0)%nat
    then (Some NoNotifications, c')
    else (check_rules 0 (config.Notifications c'), c').

(** [LoadConfig], over the file system and the decoder of
    [encoding/json] at type [Config]. *)
Definition LoadConfig (ReadFile : string → option (list Byte.byte))
    (Unmarshal : list Byte.byte → option config.Config) (path : string)
  : LoadError + config.Config :=
  match ReadFile path with
  | None => inl OpenFailed
  | Some bytes =>
      match Unmarshal bytes with
      | None => inl MalformedConfig
      | Some c =>
          match Validate c with
          | (Some e, _) => inl (Invalid e)
          | (None, c') => inr c'
          end
      end
  end.

(** A rule that passes all the checks of the loop. *)
Definition rule_ok (n : config.NotificationConfig) : Prop :=
  config.EventType n ≠ "" ∧ config.QueueName n ≠ ""
  ∧ config.Method n ≠ ""
  ∧ ToUpper (config.Method n) ∈ ["GET"; "POST"; "PUT"; "DELETE"; "PATCH"]
  ∧ config.URL n ≠ "" ∧ ParseRequestURI_ok (config.URL n) = true.

End Validation.

(** ** The worker's life cycle: [Start] *)

(** The push consumer of the broker client. *)
Class ConsumerClient (C : Type) := {
  consumer_Subscribe : string → C → option string * C;
  consumer_Start : C → option string * C
}.

(** The calls [Start] makes on the consumer, oldest first. *)
Inductive ConsumerCall :=
  | Subscribed (topic : string) (err : option string)
  | Started (err : option string).

Inductive StartError :=
  | SubscribeFailed (topic cause : string)
  | StartFailed (cause : string).

Definition subscribed_topic (c : ConsumerCall) : option string :=
  match c with Subscribed topic _ => Some topic | Started _ => None end.

(** The topics handed to [Subscribe], in the order of the calls. *)
Definition subscribed_topics (t : list ConsumerCall) : list string :=
  omap subscribed_topic t.

Definition starts (t : list ConsumerCall) : nat :=
  length (List.filter
            (λ c, match c with Started _ => true | _ => false end) t).

Section Lifecycle.

Context {C : Type} `{!ConsumerClient C}.

(** The loop of [Start]; [topics] is the map of the names subscribed so
    far. *)
Fixpoint subscribeAll (rules : list config.NotificationConfig)
    (topics : gmap string bool) (s : C * list ConsumerCall)
  : option StartError * (C * list ConsumerCall) :=
  match rules with
  | [] => (None, s)
  | n :: rest =>
      match topics !! config.QueueName n with
      | Some _ => subscribeAll rest topics s
      | None =>
          let (err, c') := consumer_Subscribe (config.QueueName n) s.1 in
          let s' := (c', s.2 ++ [Subscribed (config.QueueName n) err]) in
          match err with
          | Some cause =>
              (Some (SubscribeFailed (config.QueueName n) cause), s')
          | None => subscribeAll rest (<[config.QueueName n := true]> topics) s'
          end
      end
  end.

Definition Start (cfg : config.Config) (s : C * list ConsumerCall)
  : option StartError * (C * list ConsumerCall) :=
  match subscribeAll (config.Notifications cfg) ∅ s with
  | (Some e, s') => (Some e, s')
  | (None, s') =>
      let (err, c') := consumer_Start s'.1 in
      (match err with Some cause => Some (StartFailed cause) | None => None end,
       (c', s'.2 ++ [Started err]))
  end.

End Lifecycle.

(** ** The ingestion endpoint of the API service *)

Record ApiRequest := {
  ApiMethod : string;
  ApiBody : list Byte.byte
}.

(** The status and the text written to the [http.ResponseWriter]. *)
Record ApiResponse := {
  ApiStatus : Z;
  ApiText : string
}.

(** What the endpoint is linked against: the stream decoder and the encoder
    of [encoding/json] at type [Event] (the encoder's error is dropped by
    the caller, which then sends the [nil] body), [Time.IsZero], the clock,
    and the producer. *)
Class IngestCollaborators (P : Type) := {
  decode_event : list Byte.byte → option event.Event;
  marshal_event : event.Event → list Byte.byte;
  timestamp_IsZero : string → bool;
  time_Now : P → string;
  ingest_SendSync : primitive.Message → P → option string * P
}.

(** [http.Error(w, msg, code)]: the text is the message and a newline. *)
Definition http_Error (msg : string) (code : Z) : ApiResponse :=
  {| ApiStatus := code; ApiText := msg +:+ String "010"%char "" |}.

Section Ingestion.

Context {P : Type} `{!IngestCollaborators P}.

(** [mq.SendMessage]: a message of topic and body, sent synchronously; the
    state is the producer's and the list of messages sent, oldest first. *)
Definition SendMessage (topic : string) (body : list Byte.byte)
    (s : P * list (primitive.Message * option string))
  : option string * (P * list (primitive.Message * option string)) :=
  let msg := {| primitive.Topic := topic; primitive.Body := body;
                primitive.Properties := ∅ |} in
  let (err, p') := ingest_SendSync msg s.1 in
  (err, (p', s.2 ++ [(msg, err)])).

(** The event as the endpoint publishes it: [evt.Timestamp = time.Now()]
    if the timestamp is zero. *)
Definition stamped (evt : event.Event) (p : P) : event.Event :=
  if timestamp_IsZero (event.Timestamp evt)
  then {| event.ID := event.ID evt; event.Typ := event.Typ evt;
          event.Timestamp := time_Now p; event.Data := event.Data evt |}
  else evt.

Definition handleEventIngestion (cfg : config.Config) (r : ApiRequest)
    (s : P * list (primitive.Message * option string))
  : ApiResponse * (P * list (primitive.Message * option string)) :=
  if negb (String.eqb (ApiMethod r) "POST")
  then (http_Error "Method not allowed" 405, s)
  else
    match decode_event (ApiBody r) with
    | None => (http_Error "Invalid request body" 400, s)
    | Some evt =>
        if String.eqb (event.Typ evt) ""
        then (http_Error "Event type is required" 400, s)
        else
          match config.FindNotificationConfig cfg (event.Typ evt) with
          | None =>
              (http_Error ("Unknown event type: " +:+ event.Typ evt) 400, s)
          | Some notifyConfig =>
              let topic := config.QueueName notifyConfig in
              let body := marshal_event (stamped evt s.1) in
              match SendMessage topic body s with
              | (Some _, s') => (http_Error "Internal server error" 500, s')
              | (None, s') =>
                  ({| ApiStatus := 202; ApiText := "Event accepted" |}, s')
              end
          end
    end.

End Ingestion.

(** ** More vocabulary for runs *)

(** The nesting depth of a value. *)
Fixpoint depth (v : Value) : nat :=
  match v with
  | VArray elems => S (foldr (λ x acc, depth x `max` acc)%nat 0%nat elems)
  | VObject fields =>
      S (map_fold (λ _ x acc, depth x `max` acc)%nat 0%nat fields)
  | _ => 0%nat
  end.

(** The time slept in a run, in nanoseconds. *)
Definition slept (e : Effect) : Z :=
  match e with Slept d => d | _ => 0 end.

Definition slept_total (t : list Effect) : Z :=
  foldr (λ e acc, slept e + acc) 0 t.

(** The calls of the endpoint that were answered with a status in
    [200,300). *)
Definition is_success (e : Effect) : bool :=
  match e with
  | HttpDone _ (Response status _) => is2xx status
  | _ => false
  end.

Definition successes (t : list Effect) : nat :=
  length (List.filter is_success t).

(** A message the callback hands to the executor: below the threshold,
    decodable, and of a type with a rule. *)
Definition routable {Env : Type} `{!Collaborators Env} (cfg : config.Config)
    (msg : primitive.MessageExt) : Prop :=
  primitive.ReconsumeTimes msg < config.MaxRetries (config.MQ cfg)
  ∧ ∃ evt n,
      json_Unmarshal (primitive.Body (primitive.Msg msg)) = Some evt
      ∧ config.FindNotificationConfig cfg (event.Typ evt) = Some n.

(** An effect of the executor for rule [n]: a sleep, or a call with the
    method and the URL of the rule and the given body. *)
Definition delivery_effect (n : config.NotificationConfig)
    (body : list Byte.byte) (e : Effect) : Prop :=
  match e with
  | Slept _ => True
  | HttpDone req _ =>
      ReqMethod req = config.Method n ∧ ReqURL req = config.URL n
      ∧ ReqBody req = body
  | DLQSent _ _ => False
  end.

(** ** More worlds to run the system in *)

(** An endpoint that cannot be reached, and a broker that is down. *)
Definition unreachable : Collaborators unit := {|
  client_Do := λ _ (e : unit), (TransportError "connection refused", e);
  producer_SendSync := λ _ (e : unit), (Some "broker unavailable", e);
  json_Unmarshal := scripted_Unmarshal;
  json_Marshal := λ _, Some ([] : list Byte.byte);
  request_ok := λ _ _, true
|}.


(** Upper-casing of ASCII letters, all that the sample methods need. *)
Definition ascii_upper (c : ascii) : ascii :=
  let n := nat_of_ascii c in
  if ((97 <=? n) && (n <=? 122))%nat then ascii_of_nat (n - 32) else c.

Fixpoint ascii_ToUpper (s : string) : string :=
  match s with
  | EmptyString => EmptyString
  | String c rest => String (ascii_upper c) (ascii_ToUpper rest)
  end.

Definition sample_uri_ok (u : string) : bool := strings.HasPrefix u "http".

(** A second rule on the queue of the first, and a rule spelled in lower
    case. *)
Definition payment_rule : config.NotificationConfig := {|
  config.EventType := "payment";
  config.QueueName := "registration_queue";
  config.Method := "put";
  config.URL := "https://httpbin.org/put";
  config.Headers := ∅;
  config.Body := {[ "amount" := VString "{$.event.amount}" ]}
|}.

Definition refund_rule : config.NotificationConfig := {|
  config.EventType := "refund";
  config.QueueName := "refund_queue";
  config.Method := "POST";
  config.URL := "https://httpbin.org/post";
  config.Headers := ∅;
  config.Body := ∅
|}.

Definition unset_retries_config : config.Config := {|
  config.MQ := {| config.NameServer := "127.0.0.1:9876";
                  config.AccessKey := ""; config.SecretKey := "";
                  config.GroupName := "notification_consumer_group";
                  config.MaxRetries := 0 |};
  config.Notifications := [sample_rule; payment_rule; refund_rule]
|}.

(** A consumer that accepts every subscription but those to the topics
    it is told to refuse; its state is the list of refused topics. *)
Definition picky_Subscribe (topic : string) (refused : list string)
  : option string * list string :=
  (if bool_decide (topic ∈ refused) then Some "no such topic" else None,
   refused).

#[global] Instance picky : ConsumerClient (list string) := {|
  consumer_Subscribe := picky_Subscribe;
  consumer_Start := λ refused, (None, refused)
|}.

Definition consumer_refusing (refused : list string)
  : list string * list ConsumerCall := (refused, []).

(** An API service whose broker is up or down, as the flag says. *)
#[global] Instance flagged : IngestCollaborators bool := {|
  decode_event := scripted_Unmarshal;
  marshal_event := λ evt, Byte.x7b :: list_byte_of_string (event.Typ evt);
  timestamp_IsZero := λ t, String.eqb t "";
  time_Now := λ _ : bool, "2023-10-27T10:00:00Z";
  ingest_SendSync := λ _ (up : bool),
    (if up then None else Some "broker unavailable", up)
|}.

Definition api_state (up : bool)
  : bool * list (primitive.Message * option string) := (up, []).

Definition post (body : string) : ApiRequest :=
  {| ApiMethod := "POST"; ApiBody := list_byte_of_string body |}.

(** * Properties *)

(** ** The string helpers *)

Lemma Split_leading_sep (rest : string) (sep : ascii) :
  strings.Split (String sep rest) sep = EmptyString :: strings.Split rest sep.
Proof. simpl. by rewrite Ascii.eqb_refl. Qed.

Lemma Split_nonempty (s : string) (sep : ascii) : strings.Split s sep ≠ [].
Proof.
  induction s as [|c s IH]; simpl; [done|].
  destruct (Ascii.eqb c sep); [done|].
  by destruct (strings.Split s sep).
Qed.

(** A string that starts like a placeholder has a brace, a dollar and a dot
    as its first three bytes, and six bytes more. *)
Lemma HasPrefix_placeholder (val : string) :
  strings.HasPrefix val "{$.event." = true →
  ∃ rest, val = String "{" (String "$" (String "." rest))
          ∧ (6 ≤ String.length rest)%nat.
Proof.
  unfold strings.HasPrefix. intros Hp.
  apply prefix_correct in Hp.
  do 9 (destruct val as [|? val]; [discriminate|]).
  simpl in Hp. injection Hp as <- <- <- _ _ _ _ _ _ _.
  eexists. split; [reflexivity|]. simpl. lia.
Qed.

(** The slice [val[2 : len(val)-1]] is within bounds wherever
    [resolveValue] takes it. *)
Lemma slice_in_range (val : string) :
  strings.HasPrefix val "{$.event." = true →
  (2 ≤ String.length val - 1 ≤ String.length val)%nat.
Proof.
  intros (rest & -> & Hlen)%HasPrefix_placeholder. simpl. lia.
Qed.

(** The path cut out of such a string starts with the dot that follows the
    dollar, so its first part is empty. *)
Lemma placeholder_path_parts (val : string) :
  strings.HasPrefix val "{$.event." = true →
  ∃ parts,
    strings.Split (strings.slice val 2 (String.length val - 1)) "."%char
    = EmptyString :: parts.
Proof.
  intros (rest & -> & Hlen)%HasPrefix_placeholder.
  unfold strings.slice.
  replace (String.length (String "{" (String "$" (String "." rest))) - 1 - 2)%nat
    with (S (String.length rest - 1)) by (simpl; lia).
  cbn [substring]. rewrite Split_leading_sep. eauto.
Qed.

(** ** The renderer *)

(** No string is ever replaced: the first part of the path is never [$]. *)
Lemma resolveValue_verbatim (evt : event.Event) (val : string) :
  resolveValue evt val = VString val.
Proof.
  unfold resolveValue.
  destruct (strings.HasPrefix val "{$.event.") eqn:Hp; [|done].
  destruct (strings.HasSuffix val "}"); [|done].
  destruct (placeholder_path_parts val Hp) as [parts ->]. simpl.
  by destruct parts as [|p1 [|key [|? ?]]].
Qed.

(** Whatever [resolveValue] returns is the string it was given or a value
    stored in the event's data, handed over as it is. *)
Lemma resolveValue_cases (evt : event.Event) (val : string) :
  resolveValue evt val = VString val
  ∨ ∃ key, event.Data evt !! key = Some (resolveValue evt val).
Proof.
  unfold resolveValue.
  destruct (_ && _); [|by left].
  destruct (strings.Split _ _) as [|p0 [|p1 [|key [|? ?]]]]; try by left.
  destruct (_ && _); [|by left].
  destruct (event.Data evt !! key) eqn:Hk; [right; eauto|by left].
Qed.

(** C3 (what the code does at the failing input): with [user_id] present in
    the event's data, the well-formed placeholder [{$.event.user_id}] is
    not replaced by the field's value; [resolveValue] gives the placeholder
    string back, because the path it splits is [.event.user_id], whose
    first part is empty. *)
Theorem resolveValue_placeholder_left_unresolved :
  event.Data sample_event !! "user_id" = Some (VString "42")
  ∧ strings.Split
      (strings.slice "{$.event.user_id}" 2
         (String.length "{$.event.user_id}" - 1)) "."%char
    = [""; "event"; "user_id"]
  ∧ resolveValue sample_event "{$.event.user_id}"
    = VString "{$.event.user_id}"
  ∧ replacePlaceholders sample_event
      (VObject {[ "id" := VString "{$.event.user_id}"; "n" := VNumber 5 ]})
    = VObject {[ "id" := VString "{$.event.user_id}"; "n" := VNumber 5 ]}.
Proof. repeat split; vm_compute; reflexivity. Qed.

(** C6: for a placeholder [{$.event.<field>}] whose field is absent from
    the event's data, the renderer returns the placeholder string itself,
    unchanged: a string value, neither null nor an error. *)
Theorem resolveValue_missing_field (evt : event.Event) (field : string) :
  event.Data evt !! field = None →
  resolveValue evt ("{$.event." +:+ field +:+ "}")
  = VString ("{$.event." +:+ field +:+ "}")
  ∧ replacePlaceholders evt (VString ("{$.event." +:+ field +:+ "}"))
    = VString ("{$.event." +:+ field +:+ "}").
Proof. intros _. split; apply resolveValue_verbatim. Qed.

Lemma resolveValue_missing_field_witness :
  event.Data sample_event !! "missing" = None
  ∧ resolveValue sample_event "{$.event.missing}"
    = VString "{$.event.missing}".
Proof.
  split; [vm_compute; reflexivity|].
  apply (resolveValue_missing_field sample_event "missing").
  vm_compute; reflexivity.
Defined.

(** Rendering follows the shape of the template: an object is rendered to
    an object with the same keys, each field rendered on its own; an array
    to an array of the same length, each element rendered in place; null,
    booleans and numbers are returned as they are, and so is every
    string. *)
Lemma replacePlaceholders_structural (evt : event.Event) :
  (∀ fields : gmap string Value, ∃ fields',
      replacePlaceholders evt (VObject fields) = VObject fields'
      ∧ dom fields' = dom fields
      ∧ ∀ k, fields' !! k = replacePlaceholders evt <$> fields !! k)
  ∧ (∀ elems : list Value, ∃ elems',
      replacePlaceholders evt (VArray elems) = VArray elems'
      ∧ length elems' = length elems
      ∧ ∀ i : nat, elems' !! i = replacePlaceholders evt <$> elems !! i)
  ∧ replacePlaceholders evt VNull = VNull
  ∧ (∀ b, replacePlaceholders evt (VBool b) = VBool b)
  ∧ (∀ n, replacePlaceholders evt (VNumber n) = VNumber n)
  ∧ (∀ s, replacePlaceholders evt (VString s) = VString s).
Proof.
  repeat split; try done.
  - intros fields. exists (replacePlaceholders evt <$> fields).
    split; [done|]. split; [apply dom_fmap_L|].
    intros k. apply lookup_fmap.
  - intros elems. exists (replacePlaceholders evt <$> elems).
    split; [done|]. split; [apply length_fmap|].
    intros i. apply list_lookup_fmap.
  - intros s. apply resolveValue_verbatim.
Qed.

(** C7 (what the code does at the failing input): the event's data has the
    numeric field [amount], and the template names it in an object, next
    to a number, and in an array.  The shape of the template is kept, and
    the number next to the placeholder is passed through, but the
    placeholder is not replaced by the number 100: it stays the string it
    was.  No string of a template is ever rendered to anything but a
    string. *)
Theorem replacePlaceholders_numeric_field_stays_string :
  event.Data sample_event !! "amount" = Some (VNumber 100)
  ∧ replacePlaceholders sample_event
      (VObject {[ "n" := VString "{$.event.amount}"; "k" := VNumber 5;
                  "l" := VArray [VString "{$.event.amount}"; VBool true] ]})
    = VObject {[ "n" := VString "{$.event.amount}"; "k" := VNumber 5;
                 "l" := VArray [VString "{$.event.amount}"; VBool true] ]}
  ∧ kind_of (replacePlaceholders sample_event (VString "{$.event.amount}"))
    = KString
  ∧ ∀ (evt : event.Event) (s : string),
      kind_of (replacePlaceholders evt (VString s)) = KString.
Proof.
  split; [vm_compute; reflexivity|].
  split; [vm_compute; reflexivity|].
  split; [vm_compute; reflexivity|].
  intros evt s. cbn [replacePlaceholders]. by rewrite resolveValue_verbatim.
Qed.

(** ** The delivery executor *)

Section Executor.

Context {Env : Type} `{!Collaborators Env}.

Implicit Types (n : config.NotificationConfig) (w : World Env).
Implicit Types (results : list HttpResult) (lastErr : option error).

Lemma verdict_again (res : HttpResult) (e : error) :
  verdict res = Again e → e = recorded res.
Proof.
  destruct res as [cause|status body]; simpl; [congruence|].
  destruct (is2xx status); [done|].
  destruct (isClientError status); congruence.
Qed.

Lemma backoff_values :
  backoff 1 = 200 * Millisecond ∧ backoff 2 = 400 * Millisecond.
Proof. split; reflexivity. Qed.

(** One iteration of the loop: the sleep if it is not the first, the
    request, the call, and what the result does to the loop. *)
Lemma attempts_step n body remaining i lastErr w :
  attempts n body (S remaining) i lastErr w =
  match NewRequest n body with
  | None => (Some CreateRequestError, mkWorld (env w) (trace w ++ pause i))
  | Some req =>
      let (res, e) := client_Do req (env w) in
      let w1 := mkWorld e (trace w ++ pause i ++ [HttpDone req res]) in
      match verdict res with
      | Delivered => (None, w1)
      | Fatal err => (Some err, w1)
      | Again err => attempts n body remaining (i + 1) (Some err) w1
      end
  end.
Proof.
  destruct w as [e0 t0].
  cbn [attempts]. unfold mbind, M_bind, bind, Sleep, Do, ret, pause.
  destruct (0 <? i); cbn beta iota; cbn [env trace].
  all: destruct (NewRequest n body) as [req|]; [|by rewrite ?app_nil_r].
  all: cbn [env trace].
  all: destruct (client_Do req e0) as [res e1].
  all: rewrite <- ?app_assoc; cbn [app].
  all: destruct res as [cause|status rbody]; cbn [verdict]; [done|].
  all: destruct (is2xx status); [done|].
  all: by destruct (isClientError status).
Qed.

Lemma attempts_run n body req :
  NewRequest n body = Some req →
  ∀ remaining i lastErr w, ∃ results,
    (length results ≤ remaining)%nat
    ∧ trace (attempts n body remaining i lastErr w).2
      = trace w ++ ladder req i results
    ∧ (attempts n body remaining i lastErr w).1 = outcome lastErr results
    ∧ goes_on results = true
    ∧ ((length results < remaining)%nat →
       ∃ r, last results = Some r ∧ is_again r = false).
Proof.
  intros Hreq. induction remaining as [|remaining IH]; intros i lastErr w.
  { exists []. cbn. rewrite app_nil_r. repeat split; [lia..|]. lia. }
  rewrite attempts_step, Hreq.
  destruct (client_Do req (env w)) as [res e]. cbn zeta.
  destruct (verdict res) as [|err|err] eqn:Hv.
  1, 2: exists [res]; cbn; rewrite Hv; repeat split; [lia|];
        intros _; exists res; split; [done|]; unfold is_again; by rewrite Hv.
  destruct (IH (i + 1) (Some err)
              (mkWorld e (trace w ++ pause i ++ [HttpDone req res])))
    as (results & Hlen & Htrace & Hout & Hgo & Hstop).
  exists (res :: results). repeat split.
  - cbn. lia.
  - rewrite Htrace. cbn [trace ladder]. by rewrite <- !app_assoc.
  - rewrite Hout. cbn. by rewrite Hv.
  - destruct results as [|r rs]; [done|].
    cbn [goes_on]. unfold is_again at 1. rewrite Hv. done.
  - intros Hlt. destruct Hstop as (r & Hlast & Hr); [cbn in Hlt; lia|].
    exists r. split; [|done].
    destruct results as [|r0 rs]; [done|]. done.
Qed.


(** The outcome of a run whose results all asked for another attempt but
    possibly the last one is decided by the last one. *)
Lemma outcome_last results lastErr (r : HttpResult) :
  goes_on results = true → last results = Some r →
  outcome lastErr results =
  match verdict r with
  | Delivered => None
  | Fatal e | Again e => Some e
  end.
Proof.
  revert lastErr. induction results as [|r0 rs IH]; intros lastErr Hgo Hl;
    [done|].
  destruct rs as [|r1 rs].
  { cbn in Hl. injection Hl as ->. cbn. by destruct (verdict r). }
  cbn [goes_on] in Hgo. apply andb_true_iff in Hgo as [Hr0 Hgo].
  unfold is_again in Hr0.
  change (outcome lastErr (r0 :: r1 :: rs))
    with (match verdict r0 with
          | Delivered => None
          | Fatal e => Some e
          | Again e => outcome (Some e) (r1 :: rs)
          end).
  destruct (verdict r0) as [| |e0]; try done.
  apply (IH (Some e0) Hgo). by rewrite last_cons_cons in Hl.
Qed.


Lemma ladder_http_calls (req : Request) results (i : Z) :
  http_calls (ladder req i results) = length results
  ∧ dlq_sends (ladder req i results) = 0%nat.
Proof.
  unfold http_calls, dlq_sends.
  revert i. induction results as [|r rs IH]; intros i; [done|].
  cbn [ladder]. rewrite !List.filter_app, !length_app. unfold pause.
  cbn [List.filter is_http is_dlq length].
  destruct (IH (i + 1)) as [-> ->].
  by destruct (0 <? i).
Qed.

(** What [processNotification] adds to the trace is the ladder of the
    results it received, and its value is their outcome. *)
Lemma processNotification_run n (evt : event.Event) w :
  ∃ req results,
    (length results ≤ 3)%nat
    ∧ new_effects w (processNotification n evt w).2 = ladder req 0 results
    ∧ goes_on results = true
    ∧ (results = [] ∨ (processNotification n evt w).1 = outcome None results)
    ∧ ((length results < 3)%nat → results ≠ [] →
       ∃ r, last results = Some r ∧ is_again r = false).
Proof.
  unfold processNotification, new_effects.
  destruct (renderBody (config.Body n) evt) as [body|].
  2: { exists (buildRequest n []), []. cbn. rewrite drop_all.
       repeat split; [lia|by left|done]. }
  destruct (NewRequest n body) as [req|] eqn:Hreq.
  2: { exists (buildRequest n []), [].
       unfold maxLocalRetries. rewrite attempts_step, Hreq. cbn.
       rewrite app_nil_r, drop_all. repeat split; [lia|by left|done]. }
  destruct (attempts_run n body req Hreq maxLocalRetries 0 None w)
    as (results & Hlen & Htrace & Hout & Hgo & Hstop).
  exists req, results. rewrite Htrace, drop_app_length.
  repeat split; [done|done|by right|]. intros Hlt _. by apply Hstop.
Qed.


End Executor.

Section ExecutorClaims.

Context {Env : Type} `{!Collaborators Env}.

Implicit Types (n : config.NotificationConfig) (w : World Env).


(** C9: when three attempts were made and the third one, like the two
    before it, neither succeeded nor met a terminal client error, the
    executor returns the error recorded for the third attempt, whatever
    the first two recorded. *)
Theorem processNotification_returns_last_error n (evt : event.Event) w
    (req1 req2 req3 : Request) (r1 r2 r3 : HttpResult) (d2 d3 : Z) :
  new_effects w (processNotification n evt w).2
  = [HttpDone req1 r1; Slept d2; HttpDone req2 r2; Slept d3;
     HttpDone req3 r3] →
  is_again r3 = true →
  is_again r1 = true ∧ is_again r2 = true
  ∧ (processNotification n evt w).1 = Some (recorded r3).
Proof.
  intros Hnew Hr3.
  destruct (processNotification_run n evt w)
    as (req & results & Hlen & Hnew' & Hgo & Hout & _).
  rewrite Hnew in Hnew'.
  destruct results as [|x1 [|x2 [|x3 [|x4 rs]]]]; cbn in Hnew', Hlen;
    try discriminate; try lia.
  injection Hnew' as _ <- _ _ <- _ _ <-.
  cbn [goes_on] in Hgo.
  apply andb_true_iff in Hgo as [H1 Hgo].
  apply andb_true_iff in Hgo as [H2 _].
  split; [done|]. split; [done|].
  destruct Hout as [? | ->]; [done|].
  unfold is_again in H1, H2, Hr3. cbn [outcome].
  destruct (verdict r1); try done.
  destruct (verdict r2); try done.
  destruct (verdict r3) as [| |e3] eqn:Hv; try done.
  by rewrite (verdict_again r3 e3 Hv).
Qed.

(** C2 (as amended): in an iteration of the loop whose request is answered
    with a status outside [200,300), the executor returns a client error at
    once, with no further attempt, exactly when the status is in [400,500)
    and is not 429; with any other status it records the error and goes on
    with the rest of the loop, which makes a further attempt if one is
    left. *)
Theorem attempts_status_policy n (body : list Byte.byte) (req : Request)
    (remaining : nat) (i : Z) (lastErr : option error) w
    (status : Z) (rbody : string) (e : Env) :
  NewRequest n body = Some req →
  client_Do req (env w) = (Response status rbody, e) →
  ¬ (200 ≤ status < 300) →
  attempts n body (S remaining) i lastErr w =
  let w1 := mkWorld e (trace w ++ pause i
                         ++ [HttpDone req (Response status rbody)]) in
  if bool_decide (400 ≤ status < 500 ∧ status ≠ 429)
  then (Some (ClientStatusError status rbody), w1)
  else attempts n body remaining (i + 1)
         (Some (StatusError status rbody)) w1.
Proof.
  intros Hreq Hdo Hs.
  rewrite attempts_step, Hreq, Hdo. cbn [verdict].
  assert (is2xx status = false) as ->.
  { unfold is2xx. apply andb_false_iff.
    rewrite Z.leb_gt, Z.ltb_ge. lia. }
  cbn zeta. unfold isClientError.
  case_bool_decide as Hc.
  - destruct Hc as [[H1 H2] H3].
    by rewrite (proj2 (Z.leb_le _ _)), (proj2 (Z.ltb_lt _ _)),
      (proj2 (Z.eqb_neq _ _)) by lia.
  - destruct (400 <=? status) eqn:E1; [|done].
    destruct (status <? 500) eqn:E2; [|done].
    destruct (status =? 429) eqn:E3; [done|].
    exfalso. apply Hc. lia.
Qed.

End ExecutorClaims.


Lemma attempts_status_policy_witness :
  attempts sample_rule [] 3 0 None
    (world [Response 429 "slow down"; Response 200 "ok"] true)
  = attempts sample_rule [] 2 1 (Some (StatusError 429 "slow down"))
      (mkWorld ([Response 200 "ok"], true)
         [HttpDone sample_request (Response 429 "slow down")]).
Proof.
  apply (attempts_status_policy sample_rule [] sample_request 2 0 None
           (world [Response 429 "slow down"; Response 200 "ok"] true)
           429 "slow down" ([Response 200 "ok"], true)).
  - reflexivity.
  - reflexivity.
  - lia.
Defined.

Lemma processNotification_returns_last_error_witness :
  is_again (Response 503 "busy") = true
  ∧ is_again (Response 500 "oops") = true
  ∧ (processNotification sample_rule sample_event
       (world [Response 503 "busy"; Response 500 "oops";
               TransportError "timeout"] true)).1
    = Some (recorded (TransportError "timeout")).
Proof.
  apply (processNotification_returns_last_error sample_rule sample_event
           (world [Response 503 "busy"; Response 500 "oops";
                   TransportError "timeout"] true)
           sample_request sample_request sample_request
           (Response 503 "busy") (Response 500 "oops")
           (TransportError "timeout")
           (200 * Millisecond) (400 * Millisecond)).
  - vm_compute. reflexivity.
  - reflexivity.
Defined.

(** Two runs against the scripted endpoint: 503, 503, 200 succeeds at the
    third attempt after sleeps of 200ms and 400ms; 404 fails for good after
    one attempt and no sleep. *)
Example processNotification_503_503_200 :
  processNotification sample_rule sample_event
    (world [Response 503 "a"; Response 503 "b"; Response 200 "ok"] true)
  = (None,
     mkWorld ([], true)
       [HttpDone sample_request (Response 503 "a");
        Slept 200000000;
        HttpDone sample_request (Response 503 "b");
        Slept 400000000;
        HttpDone sample_request (Response 200 "ok")]).
Proof. vm_compute. reflexivity. Qed.

Example processNotification_404 :
  processNotification sample_rule sample_event
    (world [Response 404 "not found"; Response 200 "ok"] true)
  = (Some (ClientStatusError 404 "not found"),
     mkWorld ([Response 200 "ok"], true)
       [HttpDone sample_request (Response 404 "not found")]).
Proof. vm_compute. reflexivity. Qed.

(** C2 (counterexample): 402 is not one of 400, 401, 403 and 404, and two
    attempts are left after the first, the next of which would succeed;
    the executor still returns a client error after the one attempt. *)
Lemma status_402_not_retried :
  spec_terminal 402 = false
  ∧ (processNotification sample_rule sample_event
       (world [Response 402 "pay"; Response 200 "ok"] true)).1
    = Some (ClientStatusError 402 "pay")
  ∧ new_effects (world [Response 402 "pay"; Response 200 "ok"] true)
      (processNotification sample_rule sample_event
         (world [Response 402 "pay"; Response 200 "ok"] true)).2
    = [HttpDone sample_request (Response 402 "pay")].
Proof. repeat split; vm_compute; reflexivity. Qed.

(** ** Dead-letter escalation and the callback *)

Section HandlerClaims.

Context {Env : Type} `{!Collaborators Env}.

Variable cfg : config.Config.

Implicit Types (msg : primitive.MessageExt) (w : World Env).

(** What [sendToDLQ] does: one call of the producer with the dead letter,
    whose answer is recorded and returned. *)
Lemma sendToDLQ_run msg w :
  sendToDLQ msg w =
  let sent := producer_SendSync (dlqMessage msg) (env w) in
  (sent.1, mkWorld sent.2 (trace w ++ [DLQSent (dlqMessage msg) sent.1])).
Proof.
  unfold sendToDLQ, SendSync.
  by destruct (producer_SendSync (dlqMessage msg) (env w)).
Qed.

(** C8: escalation publishes one message; its topic is ["DLQ_"] followed by
    the topic of the original message, its body is the original body,
    byte for byte, and its properties are the original property map; the
    error returned is the producer's. *)
Theorem sendToDLQ_publishes_original msg w :
  new_effects w (sendToDLQ msg w).2
  = [DLQSent
       {| primitive.Topic := "DLQ_" +:+ primitive.Topic (primitive.Msg msg);
          primitive.Body := primitive.Body (primitive.Msg msg);
          primitive.Properties := primitive.Properties (primitive.Msg msg) |}
       (sendToDLQ msg w).1]
  ∧ (sendToDLQ msg w).1
    = (producer_SendSync
         {| primitive.Topic := "DLQ_" +:+ primitive.Topic (primitive.Msg msg);
            primitive.Body := primitive.Body (primitive.Msg msg);
            primitive.Properties := primitive.Properties (primitive.Msg msg) |}
         (env w)).1.
Proof.
  rewrite sendToDLQ_run. unfold new_effects, dlqMessage. cbn.
  by rewrite drop_app_length.
Qed.

(** C10: called with no message, the callback returns [ConsumeSuccess] and
    no error and leaves the world as it is: nothing is published to a
    dead-letter topic and no HTTP request is made. *)
Theorem HandleMessage_empty_batch w :
  HandleMessage cfg [] w = ((consumer.ConsumeSuccess, None), w)
  ∧ new_effects w (HandleMessage cfg [] w).2 = [].
Proof. split; [done|]. cbn. apply drop_all. Qed.

(** C5: the callback on a single message.  It never returns an error.  With
    a redelivery count of at least [MaxRetries] it publishes the dead
    letter and does nothing else, and acknowledges exactly when the publish
    succeeded.  Below [MaxRetries] it publishes no dead letter; a body that
    does not decode and an event type without rule are acknowledged with no
    effect at all; otherwise the run is that of the executor on the rule
    and the event, acknowledged exactly when delivery succeeded.  In all
    cases the disposition is the one of the specification's state
    machine. *)
Theorem HandleMessage_single_message msg w :
  let out := HandleMessage cfg [msg] w in
  let new := new_effects w out.2 in
  let sent := (producer_SendSync (dlqMessage msg) (env w)).1 in
  let decoded := json_Unmarshal (primitive.Body (primitive.Msg msg)) in
  let rule :=
    evt ← decoded;
    n ← config.FindNotificationConfig cfg (event.Typ evt);
    Some (n, evt) in
  out.1.2 = None
  ∧ (if config.MaxRetries (config.MQ cfg) <=? primitive.ReconsumeTimes msg
     then new = [DLQSent (dlqMessage msg) sent] ∧ http_calls new = 0%nat
     else dlq_sends new = 0%nat
          ∧ match rule with
            | None => out.2 = w
            | Some (n, evt) => out.2 = (processNotification n evt w).2
            end)
  ∧ disposition_of out.1.1
    = spec_disposition
        (config.MaxRetries (config.MQ cfg) <=? primitive.ReconsumeTimes msg)
        (is_nil sent)
        (negb (is_nil decoded))
        (negb (is_nil rule))
        (match rule with
         | None => false
         | Some (n, evt) => is_nil (processNotification n evt w).1
         end).
Proof.
  cbn zeta. cbn [HandleMessage]. unfold spec_disposition.
  destruct (config.MaxRetries (config.MQ cfg)
            <=? primitive.ReconsumeTimes msg).
  { unfold mbind, M_bind, bind, new_effects. rewrite sendToDLQ_run.
    destruct (producer_SendSync (dlqMessage msg) (env w)) as [err e].
    destruct err; unfold ret; cbn; by rewrite drop_app_length. }
  unfold mbind, M_bind, bind, new_effects.
  destruct (json_Unmarshal (primitive.Body (primitive.Msg msg))) as [evt|].
  2: { unfold ret. cbn. by rewrite drop_all. }
  cbn [option_bind is_nil negb].
  destruct (config.FindNotificationConfig cfg (event.Typ evt)) as [n|].
  2: { unfold ret. cbn. by rewrite drop_all. }
  cbn [option_bind is_nil negb].
  destruct (processNotification_run n evt w)
    as (req & results & _ & Hnew & _).
  unfold new_effects in Hnew.
  destruct (processNotification n evt w) as [err w'].
  cbn [fst snd] in *.
  destruct err; unfold ret; cbn [fst snd is_nil disposition_of];
    rewrite Hnew; by rewrite (proj2 (ladder_http_calls req results 0)).
Qed.

End HandlerClaims.

(** A first message that ends in an acknowledgement ends the callback:
    the messages after it are not looked at. *)
Lemma HandleMessage_acknowledged_head {Env : Type} `{!Collaborators Env}
    (cfg : config.Config) (msg : primitive.MessageExt)
    (rest : list primitive.MessageExt) (w : World Env) :
  (config.MaxRetries (config.MQ cfg) <=? primitive.ReconsumeTimes msg)
  = false →
  (evt ← json_Unmarshal (primitive.Body (primitive.Msg msg));
   config.FindNotificationConfig cfg (event.Typ evt)) = None →
  HandleMessage cfg (msg :: rest) w = ((consumer.ConsumeSuccess, None), w).
Proof.
  intros Hcount Hrule. cbn [HandleMessage]. rewrite Hcount.
  destruct (json_Unmarshal (primitive.Body (primitive.Msg msg))) as [evt|];
    [|done].
  cbn in Hrule. by rewrite Hrule.
Qed.

Lemma HandleMessage_escalated_head {Env : Type} `{!Collaborators Env}
    (cfg : config.Config) (msg : primitive.MessageExt)
    (rest : list primitive.MessageExt) (w : World Env) :
  (config.MaxRetries (config.MQ cfg) <=? primitive.ReconsumeTimes msg)
  = true →
  HandleMessage cfg (msg :: rest) w = HandleMessage cfg [msg] w.
Proof. intros Hcount. cbn [HandleMessage]. by rewrite Hcount. Qed.

(** C1 (what the code does at the failing input): a batch of two messages
    whose first does not decode and whose second cannot be delivered.  On
    its own the second message is attempted three times and answered with
    [ConsumeRetryLater]; in the batch the callback returns
    [ConsumeSuccess] at the first message and the second is never looked
    at: the world is left untouched. *)
Theorem HandleMessage_batch_returns_at_first_acknowledge :
  let malformed := message "registration_queue" "garbage" 0 in
  let failing := message "registration_queue" "{registration" 0 in
  let w := world [Response 503 "a"; Response 503 "b"; Response 503 "c"] true in
  (HandleMessage sample_config [failing] w).1
  = (consumer.ConsumeRetryLater, None)
  ∧ http_calls (trace (HandleMessage sample_config [failing] w).2) = 3%nat
  ∧ HandleMessage sample_config [malformed; failing] w
    = ((consumer.ConsumeSuccess, None), w).
Proof. repeat split; vm_compute; reflexivity. Qed.

(** * Further properties *)

(** ** [strings.Split] *)

Lemma Split_cons_inv (s : string) (sep : ascii) :
  ∃ piece pieces, strings.Split s sep = piece :: pieces.
Proof.
  destruct (strings.Split s sep) as [|piece pieces] eqn:Hs; [|eauto].
  by destruct (Split_nonempty s sep).
Qed.

(** X1: splitting loses nothing and cuts at every separator: joining the
    pieces with the separator gives the string back, no piece contains the
    separator, and there is one piece more than there are separators. *)
Theorem Split_concat (s : string) (sep : ascii) :
  String.concat (String sep "") (strings.Split s sep) = s
  ∧ Forall (λ piece, sep ∉ list_ascii_of_string piece) (strings.Split s sep)
  ∧ length (strings.Split s sep)
    = S (length (List.filter (Ascii.eqb sep) (list_ascii_of_string s))).
Proof.
  induction s as [|c s (IHc & IHf & IHl)].
  { cbn. repeat split. constructor; [|done]. cbn. by intros ?%elem_of_nil. }
  cbn [strings.Split list_ascii_of_string List.filter].
  destruct (Split_cons_inv s sep) as (piece & pieces & Hs).
  rewrite Hs in IHc, IHf, IHl |- *.
  rewrite (Ascii.eqb_sym sep c).
  destruct (Ascii.eqb c sep) eqn:Hc.
  - apply Ascii.eqb_eq in Hc as ->. repeat split.
    + cbn [String.concat]. cbn. by rewrite <- IHc.
    + constructor; [|done]. cbn. by intros ?%elem_of_nil.
    + cbn [length] in IHl |- *. by rewrite IHl.
  - apply Ascii.eqb_neq in Hc. repeat split.
    + rewrite <- IHc. by destruct pieces.
    + apply Forall_cons in IHf as [Hp Hps]. constructor; [|done].
      cbn. intros [?|?]%elem_of_cons; congruence.
    + cbn [length] in IHl |- *. done.
Qed.

(** ** The renderer, as a whole *)

Lemma depth_elem (elems : list Value) (i : nat) (x : Value) :
  elems !! i = Some x → (depth x < depth (VArray elems))%nat.
Proof.
  cbn [depth]. revert i. induction elems as [|y elems IH]; intros i Hi; [done|].
  destruct i as [|i]; cbn in Hi |- *.
  - injection Hi as ->. lia.
  - specialize (IH i Hi). lia.
Qed.

Lemma depth_field (fields : gmap string Value) (k : string) (x : Value) :
  fields !! k = Some x → (depth x < depth (VObject fields))%nat.
Proof.
  cbn [depth]. revert k x.
  induction fields as [|j y fields Hj Hfold IH] using map_first_key_ind;
    intros k x Hk; [done|].
  rewrite map_fold_insert_first_key by done.
  apply lookup_insert_Some in Hk as [[-> ->]|[_ Hk]]; [lia|].
  specialize (IH k x Hk). lia.
Qed.

Lemma replacePlaceholders_id_depth (evt : event.Event) (d : nat) :
  ∀ v, (depth v < d)%nat → replacePlaceholders evt v = v.
Proof.
  induction d as [|d IH]; intros v Hd; [lia|].
  destruct v as [| | |s|elems|fields]; cbn [replacePlaceholders]; try done.
  - apply resolveValue_verbatim.
  - f_equal. apply list_eq. intros i. rewrite list_lookup_fmap.
    destruct (elems !! i) as [x|] eqn:Hx; [|done]. cbn. f_equal.
    apply IH. pose proof (depth_elem elems i x Hx). lia.
  - f_equal. apply map_eq. intros k. rewrite lookup_fmap.
    destruct (fields !! k) as [x|] eqn:Hx; [|done]. cbn. f_equal.
    apply IH. pose proof (depth_field fields k x Hx). lia.
Qed.

(** X2: rendering does not depend on the event: a template is rendered to
    the same value for any two events, every string in it is returned as
    it is, and [renderBody] encodes the same body whatever the event. *)
Theorem replacePlaceholders_ignores_event {Env : Type} `{!Collaborators Env}
    (evt1 evt2 : event.Event) (templateBody : gmap string Value) :
  (∀ v, replacePlaceholders evt1 v = replacePlaceholders evt2 v)
  ∧ (∀ s, replacePlaceholders evt1 (VString s) = VString s)
  ∧ renderBody templateBody evt1 = renderBody templateBody evt2.
Proof.
  assert (Hid : ∀ evt v, replacePlaceholders evt v = v).
  { intros evt v. apply (replacePlaceholders_id_depth evt (S (depth v))). lia. }
  split; [intros v; by rewrite !Hid|].
  split; [intros s; apply Hid|].
  unfold renderBody. by rewrite !Hid.
Qed.

(** ** The delivery executor, further *)

Section ExecutorFurther.

Context {Env : Type} `{!Collaborators Env}.

Implicit Types (n : config.NotificationConfig) (w : World Env).
Implicit Types (results : list HttpResult) (evt : event.Event).

Lemma ladder_last (req : Request) results (i : Z) :
  last (ladder req i results) = HttpDone req <$> last results.
Proof.
  revert i. induction results as [|r rs IH]; intros i; [done|].
  cbn [ladder]. rewrite last_app, last_cons, IH.
  destruct rs as [|r' rs]; [done|].
  rewrite last_cons_cons.
  destruct (last (r' :: rs)) eqn:Hl; [done|]. by apply last_None in Hl.
Qed.

Lemma ladder_delivery_effect n (body : list Byte.byte) results (i : Z) :
  Forall (delivery_effect n body) (ladder (buildRequest n body) i results).
Proof.
  revert i. induction results as [|r rs IH]; intros i; [constructor|].
  cbn [ladder]. apply Forall_app. split.
  - unfold pause. destruct (0 <? i); repeat constructor.
  - constructor; [done|]. apply IH.
Qed.

Lemma ladder_slept_total (req : Request) results :
  (length results ≤ 3)%nat →
  slept_total (ladder req 0 results)
  = match length results with
    | 0%nat | 1%nat => 0
    | 2%nat => 200 * Millisecond
    | _ => 600 * Millisecond
    end.
Proof.
  intros Hlen.
  destruct results as [|r1 [|r2 [|r3 [|r4 rs]]]]; try reflexivity.
  cbn in Hlen. lia.
Qed.

(** The three ways [processNotification] can go: the body does not
    encode, the request is rejected, or the loop runs. *)
Lemma processNotification_cases n evt w :
  (renderBody (config.Body n) evt = None
   ∧ processNotification n evt w = (Some RenderError, w))
  ∨ (∃ body, renderBody (config.Body n) evt = Some body
       ∧ NewRequest n body = None
       ∧ processNotification n evt w = (Some CreateRequestError, w))
  ∨ (∃ body results,
       renderBody (config.Body n) evt = Some body
       ∧ NewRequest n body = Some (buildRequest n body)
       ∧ (0 < length results ≤ 3)%nat
       ∧ new_effects w (processNotification n evt w).2
         = ladder (buildRequest n body) 0 results
       ∧ (processNotification n evt w).1 = outcome None results
       ∧ goes_on results = true
       ∧ ((length results < 3)%nat →
          ∃ r, last results = Some r ∧ is_again r = false)).
Proof.
  unfold processNotification.
  destruct (renderBody (config.Body n) evt) as [body|]; [|by left].
  right. destruct (NewRequest n body) as [req|] eqn:Hreq.
  2: { left. exists body. repeat split; [done|].
       unfold maxLocalRetries. rewrite attempts_step, Hreq.
       destruct w. cbn. by rewrite app_nil_r. }
  right. exists body.
  assert (req = buildRequest n body) as ->.
  { unfold NewRequest in Hreq. destruct (request_ok _ _); congruence. }
  destruct (attempts_run n body _ Hreq maxLocalRetries 0 None w)
    as (results & Hlen & Htrace & Hout & Hgo & Hstop).
  exists results. unfold new_effects. rewrite Htrace, drop_app_length.
  repeat split; try done.
  destruct results; [|cbn; lia].
  destruct Hstop as (r & Hr & _); [cbn; unfold maxLocalRetries; lia|done].
Qed.


(** X4: [processNotification] returns [nil] only if the last thing it did
    was a call of the endpoint that was answered with a status in
    [200,300). *)
Theorem processNotification_success_needs_2xx n evt w :
  (processNotification n evt w).1 = None →
  ∃ req status body,
    last (new_effects w (processNotification n evt w).2)
    = Some (HttpDone req (Response status body))
    ∧ 200 ≤ status < 300.
Proof.
  intros Hnil.
  destruct (processNotification_cases n evt w)
    as [[_ Hp]|[(body & _ & _ & Hp)|
                (body & results & _ & _ & [Hpos _] & Hnew & Hout & Hgo & _)]];
    [by rewrite Hp in Hnil..|].
  destruct (last results) as [r|] eqn:Hlast.
  2: { apply last_None in Hlast as ->. cbn in Hpos. lia. }
  rewrite Hout, (outcome_last results None r Hgo Hlast) in Hnil.
  rewrite Hnew, ladder_last, Hlast.
  destruct r as [cause|status rbody]; cbn in Hnil; [done|].
  exists (buildRequest n body), status, rbody. split; [done|].
  unfold is2xx in Hnil.
  destruct (200 <=? status) eqn:E1; destruct (status <? 300) eqn:E2;
    cbn in Hnil; try (by destruct (isClientError status)); lia.
Qed.

(** X5: an error returned by [processNotification] is a failure to build
    the request, before any effect, or it is the error of the last call of
    the endpoint: a terminal client error, or a retryable error after the
    third call. *)
Theorem processNotification_error_origin n evt w (err : error) :
  (processNotification n evt w).1 = Some err →
  ((err = RenderError ∨ err = CreateRequestError)
   ∧ (processNotification n evt w).2 = w)
  ∨ ∃ req r,
      last (new_effects w (processNotification n evt w).2)
      = Some (HttpDone req r)
      ∧ (verdict r = Fatal err
         ∨ (verdict r = Again err ∧ err = recorded r
            ∧ http_calls (new_effects w (processNotification n evt w).2)
              = 3%nat)).
Proof.
  intros Herr.
  destruct (processNotification_cases n evt w)
    as [[_ Hp]|[(body & _ & _ & Hp)|
                (body & results & _ & _ & [Hpos Hlen] & Hnew & Hout & Hgo
                 & Hstop)]].
  - rewrite Hp in Herr |- *. cbn in Herr. left.
    split; [left; congruence|done].
  - rewrite Hp in Herr |- *. cbn in Herr. left.
    split; [right; congruence|done].
  - right. destruct (last results) as [r|] eqn:Hlast.
    2: { apply last_None in Hlast as ->. cbn in Hpos. lia. }
    exists (buildRequest n body), r.
    rewrite Hnew, ladder_last, Hlast. split; [done|].
    rewrite Hout, (outcome_last results None r Hgo Hlast) in Herr.
    destruct (verdict r) as [|e|e] eqn:Hv; [done|left; congruence|].
    right. injection Herr as ->. split; [done|].
    split; [by apply verdict_again|].
    rewrite (proj1 (ladder_http_calls _ results 0)).
    destruct (decide (length results < 3)%nat) as [Hlt|]; [|lia].
    destruct (Hstop Hlt) as (r' & Hr' & Hna).
    rewrite ?Hlast in Hr'. injection Hr' as <-.
    unfold is_again in Hna. by rewrite Hv in Hna.
Qed.

(** X6: whatever the endpoint does, a run of [processNotification] sleeps
    for at most 600ms in all: not at all with one call, 200ms with two,
    600ms with three. *)
Theorem processNotification_sleep_bound n evt w :
  0 ≤ slept_total (new_effects w (processNotification n evt w).2)
    ≤ 600 * Millisecond
  ∧ slept_total (new_effects w (processNotification n evt w).2)
    = match http_calls (new_effects w (processNotification n evt w).2) with
      | 0%nat | 1%nat => 0
      | 2%nat => 200 * Millisecond
      | _ => 600 * Millisecond
      end.
Proof.
  destruct (processNotification_cases n evt w)
    as [[_ ->]|[(body & _ & _ & ->)|
                (body & results & _ & _ & [Hpos Hlen] & -> & _)]].
  1, 2: unfold new_effects; cbn [snd]; rewrite drop_all; cbn;
    unfold Millisecond; lia.
  rewrite (proj1 (ladder_http_calls _ results 0)).
  rewrite ladder_slept_total by done.
  destruct results as [|r1 [|r2 [|r3 [|r4 rs]]]]; cbn in Hlen |- *;
    unfold Millisecond; lia.
Qed.

(** X7: for a rule with a method, every call [processNotification] makes
    is made with the method and the URL of the rule, as they are spelled
    there, and with the encoded body, the same in every attempt; the run
    publishes no dead letter. *)
Theorem processNotification_requests n evt w :
  config.Method n ≠ "" →
  match renderBody (config.Body n) evt with
  | Some body =>
      Forall (delivery_effect n body)
        (new_effects w (processNotification n evt w).2)
  | None => new_effects w (processNotification n evt w).2 = []
  end.
Proof.
  intros _.
  destruct (processNotification_cases n evt w)
    as [[-> ->]|[(body & -> & _ & ->)|
                 (body & results & -> & _ & _ & -> & _)]].
  - unfold new_effects. cbn [snd]. apply drop_all.
  - unfold new_effects. cbn [snd]. rewrite drop_all. constructor.
  - apply ladder_delivery_effect.
Qed.

(** X8: against an endpoint that never gives a final answer, neither a
    status in [200,300) nor a client error, a request that can be built is
    sent exactly three times, with 600ms of sleep in all, and the error of
    the third call is returned. *)
Theorem processNotification_exhausts_retries n evt w (body : list Byte.byte) :
  (∀ req e, is_again (client_Do req e).1 = true) →
  renderBody (config.Body n) evt = Some body →
  NewRequest n body = Some (buildRequest n body) →
  http_calls (new_effects w (processNotification n evt w).2) = 3%nat
  ∧ slept_total (new_effects w (processNotification n evt w).2)
    = 600 * Millisecond
  ∧ ∃ r, last (new_effects w (processNotification n evt w).2)
         = Some (HttpDone (buildRequest n body) r)
         ∧ (processNotification n evt w).1 = Some (recorded r).
Proof.
  intros Hnever Hbody Hreq.
  assert (Hstep : ∀ remaining i lastErr w0,
    (attempts n body (S remaining) i lastErr w0)
    = attempts n body remaining (i + 1)
        (Some (recorded (client_Do (buildRequest n body) (env w0)).1))
        (mkWorld (client_Do (buildRequest n body) (env w0)).2
           (trace w0 ++ pause i
              ++ [HttpDone (buildRequest n body)
                    (client_Do (buildRequest n body) (env w0)).1]))).
  { intros remaining i lastErr w0. rewrite attempts_step, Hreq.
    pose proof (Hnever (buildRequest n body) (env w0)) as Hr.
    destruct (client_Do (buildRequest n body) (env w0)) as [r e].
    cbn [fst snd] in *. unfold is_again in Hr.
    destruct (verdict r) as [| |err] eqn:Hv; try done.
    by rewrite (verdict_again r err Hv). }
  unfold processNotification, maxLocalRetries, new_effects.
  rewrite Hbody, !Hstep. cbn [attempts ret fst snd trace env].
  rewrite <- !app_assoc, drop_app_length. cbn.
  repeat split; eauto.
Qed.

End ExecutorFurther.


Lemma processNotification_requests_witness :
  Forall (delivery_effect sample_rule [])
    (new_effects (world [Response 503 "busy"; Response 200 "ok"] true)
       (processNotification sample_rule sample_event
          (world [Response 503 "busy"; Response 200 "ok"] true)).2).
Proof.
  assert (Hmethod : config.Method sample_rule ≠ "") by discriminate.
  exact (processNotification_requests sample_rule sample_event
           (world [Response 503 "busy"; Response 200 "ok"] true) Hmethod).
Defined.

Lemma processNotification_success_needs_2xx_witness :
  ∃ req status body,
    last (new_effects (world [Response 503 "busy"; Response 204 ""] true)
            (processNotification sample_rule sample_event
               (world [Response 503 "busy"; Response 204 ""] true)).2)
    = Some (HttpDone req (Response status body))
    ∧ 200 ≤ status < 300.
Proof.
  apply (processNotification_success_needs_2xx sample_rule sample_event
           (world [Response 503 "busy"; Response 204 ""] true)).
  vm_compute. reflexivity.
Defined.

Lemma processNotification_error_origin_witness :
  ((ClientStatusError 404 "not found" = RenderError
    ∨ ClientStatusError 404 "not found" = CreateRequestError)
   ∧ (processNotification sample_rule sample_event
        (world [Response 500 "oops"; Response 404 "not found"] true)).2
     = world [Response 500 "oops"; Response 404 "not found"] true)
  ∨ ∃ req r,
      last (new_effects
              (world [Response 500 "oops"; Response 404 "not found"] true)
              (processNotification sample_rule sample_event
                 (world [Response 500 "oops"; Response 404 "not found"] true)).2)
      = Some (HttpDone req r)
      ∧ (verdict r = Fatal (ClientStatusError 404 "not found")
         ∨ (verdict r = Again (ClientStatusError 404 "not found")
            ∧ ClientStatusError 404 "not found" = recorded r
            ∧ http_calls
                (new_effects
                   (world [Response 500 "oops"; Response 404 "not found"] true)
                   (processNotification sample_rule sample_event
                      (world [Response 500 "oops"; Response 404 "not found"]
                         true)).2)
              = 3%nat)).
Proof.
  apply (processNotification_error_origin sample_rule sample_event
           (world [Response 500 "oops"; Response 404 "not found"] true)
           (ClientStatusError 404 "not found")).
  vm_compute. reflexivity.
Defined.

Lemma processNotification_exhausts_retries_witness :
  http_calls
    (new_effects (mkWorld tt [])
       (@processNotification unit unreachable sample_rule sample_event
          (mkWorld tt [])).2) = 3%nat
  ∧ slept_total
      (new_effects (mkWorld tt [])
         (@processNotification unit unreachable sample_rule sample_event
            (mkWorld tt [])).2) = 600 * Millisecond
  ∧ ∃ r, last (new_effects (mkWorld tt [])
                 (@processNotification unit unreachable sample_rule
                    sample_event (mkWorld tt [])).2)
         = Some (HttpDone (buildRequest sample_rule []) r)
         ∧ (@processNotification unit unreachable sample_rule sample_event
              (mkWorld tt [])).1 = Some (recorded r).
Proof.
  apply (@processNotification_exhausts_retries unit unreachable
           sample_rule sample_event (mkWorld tt []) []).
  - intros req e. reflexivity.
  - reflexivity.
  - reflexivity.
Defined.

(** ** The callback on batches *)

Section HandlerFurther.

Context {Env : Type} `{!Collaborators Env}.

Variable cfg : config.Config.

Implicit Types (msg : primitive.MessageExt) (w : World Env).
Implicit Types (msgs : list primitive.MessageExt).

Lemma processNotification_trace (n : config.NotificationConfig)
    (evt : event.Event) w :
  ∃ req results,
    (length results ≤ 3)%nat
    ∧ trace (processNotification n evt w).2
      = trace w ++ ladder req 0 results
    ∧ goes_on results = true
    ∧ ((processNotification n evt w).1 = None →
       ∃ r, last results = Some r ∧ verdict r = Delivered).
Proof.
  unfold processNotification.
  destruct (renderBody (config.Body n) evt) as [body|].
  2: { exists (buildRequest n []), []. cbn. rewrite app_nil_r.
       repeat split; [lia|]. intros; discriminate. }
  destruct (NewRequest n body) as [req|] eqn:Hreq.
  2: { exists (buildRequest n []), [].
       unfold maxLocalRetries. rewrite attempts_step, Hreq. cbn.
       rewrite !app_nil_r. repeat split; [lia|]. intros; discriminate. }
  destruct (attempts_run n body req Hreq maxLocalRetries 0 None w)
    as (results & Hlen & Htrace & Hout & Hgo & Hstop).
  exists req, results. repeat split; try done.
  intros Hnil. rewrite Hout in Hnil.
  destruct (last results) as [r|] eqn:Hlast.
  2: { apply last_None in Hlast as ->.
       destruct Hstop as (? & ? & _); [cbn; unfold maxLocalRetries; lia|].
       done. }
  exists r. split; [done|].
  rewrite (outcome_last results None r Hgo Hlast) in Hnil.
  by destruct (verdict r).
Qed.

Lemma ladder_successes (req : Request) (results : list HttpResult) (i : Z)
    (r : HttpResult) :
  goes_on results = true → last results = Some r → verdict r = Delivered →
  successes (ladder req i results) = 1%nat.
Proof.
  unfold successes.
  revert i. induction results as [|r0 rs IH]; intros i Hgo Hlast Hv; [done|].
  cbn [ladder]. rewrite List.filter_app, length_app.
  assert (length (List.filter is_success (pause i)) = 0%nat) as ->.
  { unfold pause. by destruct (0 <? i). }
  destruct rs as [|r1 rs].
  - cbn in Hlast. injection Hlast as ->. cbn.
    destruct r as [cause|status rbody]; cbn in Hv |- *; [done|].
    destruct (is2xx status); [done|]. by destruct (isClientError status).
  - cbn [goes_on] in Hgo. apply andb_true_iff in Hgo as [Hr0 Hgo].
    rewrite last_cons_cons in Hlast.
    cbn [List.filter].
    assert (is_success (HttpDone req r0) = false) as ->.
    { unfold is_again in Hr0.
      destruct r0 as [cause|status rbody]; cbn in Hr0 |- *; [done|].
      by destruct (is2xx status). }
    by rewrite (IH (i + 1) Hgo Hlast Hv).
Qed.

(** What a run of the callback adds to the trace, counted. *)
Lemma HandleMessage_run msgs : ∀ w, ∃ added,
  trace (HandleMessage cfg msgs w).2 = trace w ++ added
  ∧ (HandleMessage cfg msgs w).1.2 = None
  ∧ (dlq_sends added ≤ 1)%nat
  ∧ (http_calls added ≤ 3 * length msgs)%nat
  ∧ (Forall (λ msg, primitive.ReconsumeTimes msg
                    < config.MaxRetries (config.MQ cfg)) msgs →
     dlq_sends added = 0%nat)
  ∧ (Forall (routable cfg) msgs →
     (HandleMessage cfg msgs w).1.1 = consumer.ConsumeSuccess →
     successes added = length msgs).
Proof.
  induction msgs as [|msg rest IH]; intros w.
  { exists []. cbn. rewrite app_nil_r. repeat split; lia. }
  cbn [HandleMessage].
  destruct (config.MaxRetries (config.MQ cfg)
            <=? primitive.ReconsumeTimes msg) eqn:Hcount.
  { apply Z.leb_le in Hcount.
    unfold mbind, M_bind, bind. rewrite sendToDLQ_run.
    destruct (producer_SendSync (dlqMessage msg) (env w)) as [err e].
    exists [DLQSent (dlqMessage msg) err].
    destruct err; unfold ret; cbn; repeat split; try lia.
    all: try (intros [Hlt _]%Forall_cons; lia).
    all: intros [[Hlt _] _]%Forall_cons; lia. }
  apply Z.leb_gt in Hcount.
  destruct (json_Unmarshal (primitive.Body (primitive.Msg msg)))
    as [evt|] eqn:Hdec.
  2: { exists []. unfold ret. cbn. rewrite app_nil_r.
       repeat split; try lia.
       intros [(_ & ? & ? & ? & _) _]%Forall_cons. congruence. }
  destruct (config.FindNotificationConfig cfg (event.Typ evt))
    as [n|] eqn:Hfind.
  2: { exists []. unfold ret. cbn. rewrite app_nil_r.
       repeat split; try lia.
       intros [(_ & ? & ? & ? & ?) _]%Forall_cons. congruence. }
  destruct (processNotification_trace n evt w)
    as (req & results & Hlen & Htrace & Hgo & Hnil).
  pose proof (ladder_http_calls req results 0) as [Hhttp Hdlq].
  unfold mbind, M_bind, bind.
  destruct (processNotification n evt w) as [err w'].
  cbn [fst snd] in *.
  destruct err as [err|].
  { exists (ladder req 0 results). unfold ret. cbn [fst snd length].
    repeat split; try done; try lia. }
  destruct (IH w') as (added & Hadd & Herr & Hd & Hh & Hbelow & Hsucc).
  exists (ladder req 0 results ++ added).
  rewrite Hadd, Htrace, <- app_assoc.
  unfold dlq_sends, http_calls, successes in *.
  rewrite !List.filter_app, !length_app. cbn [length].
  destruct (Hnil eq_refl) as (r & Hlast & Hv).
  pose proof (ladder_successes req results 0 r Hgo Hlast Hv) as Hone.
  unfold successes in Hone.
  assert (0 < length results)%nat.
  { destruct results; [done|cbn; lia]. }
  repeat split; try done; try lia.
  - intros [_ Hrest]%Forall_cons. specialize (Hbelow Hrest). lia.
  - intros [_ Hrest]%Forall_cons Hok. specialize (Hsucc Hrest Hok). lia.
Qed.

(** X9: the callback never returns an error next to its disposition,
    whatever the batch and whatever happens to it. *)
Theorem HandleMessage_never_errors msgs w :
  (HandleMessage cfg msgs w).1.2 = None.
Proof. by destruct (HandleMessage_run msgs w) as (added & _ & ? & _). Qed.


(** X11: a batch of messages that were all redelivered fewer than
    [MaxRetries] times leads to no dead letter. *)
Theorem HandleMessage_below_threshold msgs w :
  Forall (λ msg, primitive.ReconsumeTimes msg
                 < config.MaxRetries (config.MQ cfg)) msgs →
  dlq_sends (new_effects w (HandleMessage cfg msgs w).2) = 0%nat.
Proof.
  intros Hbelow.
  destruct (HandleMessage_run msgs w) as (added & Ht & _ & _ & _ & H0 & _).
  unfold new_effects. rewrite Ht, drop_app_length. by apply H0.
Qed.


End HandlerFurther.

Lemma HandleMessage_below_threshold_witness :
  dlq_sends
    (new_effects (world [Response 200 "ok"; Response 503 "busy"] true)
       (HandleMessage sample_config
          [message "registration_queue" "{registration" 15;
           message "registration_queue" "{registration" 0]
          (world [Response 200 "ok"; Response 503 "busy"] true)).2)
  = 0%nat.
Proof.
  apply (HandleMessage_below_threshold sample_config
           [message "registration_queue" "{registration" 15;
            message "registration_queue" "{registration" 0]
           (world [Response 200 "ok"; Response 503 "busy"] true)).
  repeat constructor.
Defined.


(** ** Looking up a rule *)

Lemma find_rule_Some (rules : list config.NotificationConfig)
    (eventType : string) (n : config.NotificationConfig) :
  config.find_rule rules eventType = Some n ↔
  ∃ before after,
    rules = before ++ n :: after
    ∧ config.EventType n = eventType
    ∧ Forall (λ m, config.EventType m ≠ eventType) before.
Proof.
  induction rules as [|m rules IH]; cbn [config.find_rule].
  { split; [done|]. intros (before & after & Heq & _). by destruct before. }
  destruct (String.eqb (config.EventType m) eventType) eqn:Hm.
  - apply String.eqb_eq in Hm. split.
    + intros [= <-]. exists [], rules. by repeat split.
    + intros ([|m' before] & after & Heq & Hn & Hb).
      * by injection Heq as <- _.
      * injection Heq as <- _. by apply Forall_cons in Hb as [? _].
  - apply String.eqb_neq in Hm. rewrite IH. split.
    + intros (before & after & -> & Hn & Hb).
      exists (m :: before), after. repeat split; [done|by constructor].
    + intros ([|m' before] & after & Heq & Hn & Hb).
      * injection Heq as <- _. done.
      * injection Heq as <- ->. apply Forall_cons in Hb as [_ Hb].
        by exists before, after.
Qed.

Lemma find_rule_None (rules : list config.NotificationConfig)
    (eventType : string) :
  config.find_rule rules eventType = None ↔
  Forall (λ m, config.EventType m ≠ eventType) rules.
Proof.
  induction rules as [|m rules IH]; cbn [config.find_rule]; [done|].
  rewrite Forall_cons.
  destruct (String.eqb (config.EventType m) eventType) eqn:Hm.
  - apply String.eqb_eq in Hm. split; [done|]. by intros [? _].
  - apply String.eqb_neq in Hm. rewrite IH. tauto.
Qed.

(** X13: [FindNotificationConfig] returns a rule exactly when it is the
    first rule of the configuration with the event type asked for: rules
    of that type further down the list are never returned. *)
Theorem FindNotificationConfig_first_match (c : config.Config)
    (eventType : string) (n : config.NotificationConfig) :
  config.FindNotificationConfig c eventType = Some n ↔
  ∃ before after,
    config.Notifications c = before ++ n :: after
    ∧ config.EventType n = eventType
    ∧ Forall (λ m, config.EventType m ≠ eventType) before.
Proof. apply find_rule_Some. Qed.

(** X14: [FindNotificationConfig] returns [nil] exactly when no rule of
    the configuration has the event type asked for. *)
Theorem FindNotificationConfig_none (c : config.Config)
    (eventType : string) :
  config.FindNotificationConfig c eventType = None ↔
  ∀ m, m ∈ config.Notifications c → config.EventType m ≠ eventType.
Proof.
  unfold config.FindNotificationConfig.
  by rewrite find_rule_None, Forall_forall.
Qed.

(** ** Validating and loading the configuration *)

Section ValidationFacts.

Variable ToUpper : string → string.
Variable ParseRequestURI_ok : string → bool.

Implicit Types (c : config.Config) (n : config.NotificationConfig).

Lemma validMethods_lookup (m : string) :
  default false (validMethods !! m) = true
  ↔ m ∈ ["GET"; "POST"; "PUT"; "DELETE"; "PATCH"].
Proof.
  unfold validMethods. rewrite !elem_of_cons, elem_of_nil.
  destruct (decide (m = "GET")) as [->|]; [by intuition|].
  destruct (decide (m = "POST")) as [->|]; [by intuition|].
  destruct (decide (m = "PUT")) as [->|]; [by intuition|].
  destruct (decide (m = "DELETE")) as [->|]; [by intuition|].
  destruct (decide (m = "PATCH")) as [->|]; [by intuition|].
  rewrite !lookup_insert_ne, lookup_singleton_ne by done.
  cbn. intuition congruence.
Qed.

Lemma check_rule_None (i : nat) n :
  check_rule ToUpper ParseRequestURI_ok i n = None
  ↔ rule_ok ToUpper ParseRequestURI_ok n.
Proof.
  unfold check_rule, rule_ok.
  rewrite <- validMethods_lookup.
  destruct (String.eqb_spec (config.EventType n) ""); [by intuition|].
  destruct (String.eqb_spec (config.QueueName n) ""); [by intuition|].
  destruct (String.eqb_spec (config.Method n) ""); [by intuition|].
  destruct (default false (validMethods !! ToUpper (config.Method n)));
    cbn [negb]; [|by intuition].
  destruct (String.eqb_spec (config.URL n) ""); [by intuition|].
  destruct (ParseRequestURI_ok (config.URL n)); cbn [negb]; by intuition.
Qed.

Lemma check_rule_index (i : nat) n (e : ConfigError) :
  check_rule ToUpper ParseRequestURI_ok i n = Some e →
  error_index e = Some i.
Proof.
  unfold check_rule.
  destruct (String.eqb (config.EventType n) ""); [by intros [= <-]|].
  destruct (String.eqb (config.QueueName n) ""); [by intros [= <-]|].
  destruct (String.eqb (config.Method n) ""); [by intros [= <-]|].
  destruct (negb (default false (validMethods !! _))); [by intros [= <-]|].
  destruct (String.eqb (config.URL n) ""); [by intros [= <-]|].
  destruct (negb (ParseRequestURI_ok _)); [by intros [= <-]|].
  done.
Qed.

Lemma check_rules_None (i : nat) (rules : list config.NotificationConfig) :
  check_rules ToUpper ParseRequestURI_ok i rules = None
  ↔ Forall (rule_ok ToUpper ParseRequestURI_ok) rules.
Proof.
  revert i. induction rules as [|n rules IH]; intros i; cbn; [done|].
  rewrite Forall_cons, <- (check_rule_None i n), <- (IH (S i)).
  destruct (check_rule ToUpper ParseRequestURI_ok i n); by intuition.
Qed.

Lemma check_rules_Some (i : nat) (rules : list config.NotificationConfig)
    (e : ConfigError) :
  check_rules ToUpper ParseRequestURI_ok i rules = Some e →
  ∃ (j : nat) n,
    error_index e = Some (i + j)%nat ∧ rules !! j = Some n
    ∧ ¬ rule_ok ToUpper ParseRequestURI_ok n
    ∧ Forall (rule_ok ToUpper ParseRequestURI_ok) (take j rules).
Proof.
  revert i. induction rules as [|n rules IH]; intros i; cbn; [done|].
  destruct (check_rule ToUpper ParseRequestURI_ok i n) as [e'|] eqn:Hn.
  - intros [= ->]. exists 0%nat, n. rewrite Nat.add_0_r.
    split; [by eapply check_rule_index|]. split; [reflexivity|].
    split; [|constructor].
    rewrite <- (check_rule_None i n), Hn. done.
  - intros (j & m & Hidx & Hj & Hbad & Hgood)%IH.
    exists (S j), m. rewrite Nat.add_succ_r.
    split; [done|]. split; [done|]. split; [done|].
    cbn. constructor; [|done]. by apply (check_rule_None i n).
Qed.

(** [Validate] in two steps: the checks of the broker settings, then the
    default and the checks of the rules. *)
Lemma Validate_unfold c :
  Validate ToUpper ParseRequestURI_ok c =
  if String.eqb (config.NameServer (config.MQ c)) ""
  then (Some NameServerRequired, c)
  else if String.eqb (config.GroupName (config.MQ c)) ""
  then (Some GroupNameRequired, c)
  else if config.MaxRetries (config.MQ c) <? 0
  then (Some MaxRetriesNegative, c)
  else
    (match config.Notifications c with
     | [] => Some NoNotifications
     | _ => check_rules ToUpper ParseRequestURI_ok 0 (config.Notifications c)
     end,
     if config.MaxRetries (config.MQ c) =? 0
     then with_default_retries c else c).
Proof.
  unfold Validate.
  destruct (String.eqb _ ""); [done|].
  destruct (String.eqb _ ""); [done|].
  destruct (_ <? 0); [done|]. cbn zeta.
  destruct (_ =? 0); cbn [with_default_retries config.Notifications];
    by destruct (config.Notifications c).
Qed.

Lemma Validate_accepted c :
  (Validate ToUpper ParseRequestURI_ok c).1 = None ↔
  config.NameServer (config.MQ c) ≠ ""
  ∧ config.GroupName (config.MQ c) ≠ ""
  ∧ 0 ≤ config.MaxRetries (config.MQ c)
  ∧ config.Notifications c ≠ []
  ∧ Forall (rule_ok ToUpper ParseRequestURI_ok) (config.Notifications c).
Proof.
  rewrite Validate_unfold.
  destruct (String.eqb_spec (config.NameServer (config.MQ c)) "");
    [by intuition|].
  destruct (String.eqb_spec (config.GroupName (config.MQ c)) "");
    [by intuition|].
  destruct (Z.ltb_spec (config.MaxRetries (config.MQ c)) 0);
    [cbn; intuition (try done; lia)|].
  cbn [fst].
  destruct (config.Notifications c) as [|rule rules] eqn:Hr; [by intuition|].
  rewrite check_rules_None. by intuition.
Qed.

Lemma Validate_accepted_config c :
  (Validate ToUpper ParseRequestURI_ok c).1 = None →
  (Validate ToUpper ParseRequestURI_ok c).2
  = (if config.MaxRetries (config.MQ c) =? 0
     then with_default_retries c else c)
  ∧ 0 ≤ config.MaxRetries (config.MQ c).
Proof.
  intros Hok. apply Validate_accepted in Hok as Hc.
  destruct Hc as (Hns%String.eqb_neq & Hgn%String.eqb_neq & H0 & _).
  rewrite Validate_unfold, Hns, Hgn.
  by rewrite (proj2 (Z.ltb_ge _ _)) by lia.
Qed.

(** X15: [Validate] accepts a configuration exactly when the name server
    and the group name are not empty, [max_retries] is not negative, there
    is at least one rule, and every rule has a non-empty event type, queue
    name, method and URL, a method that is GET, POST, PUT, DELETE or PATCH
    once upper-cased, and a URL that parses. *)
Theorem Validate_accepts_iff c :
  (Validate ToUpper ParseRequestURI_ok c).1 = None ↔
  config.NameServer (config.MQ c) ≠ ""
  ∧ config.GroupName (config.MQ c) ≠ ""
  ∧ 0 ≤ config.MaxRetries (config.MQ c)
  ∧ config.Notifications c ≠ []
  ∧ Forall (rule_ok ToUpper ParseRequestURI_ok) (config.Notifications c).
Proof. apply Validate_accepted. Qed.

(** X16: in a configuration that [Validate] accepted, [MaxRetries] is at
    least 1: a value of 0 has become 16 and any other value is kept; the
    other broker settings and the rules, the spelling of their methods
    included, are as they were loaded. *)
Theorem Validate_sets_default_only c :
  (Validate ToUpper ParseRequestURI_ok c).1 = None →
  1 ≤ config.MaxRetries (config.MQ (Validate ToUpper ParseRequestURI_ok c).2)
  ∧ config.MaxRetries (config.MQ (Validate ToUpper ParseRequestURI_ok c).2)
    = (if config.MaxRetries (config.MQ c) =? 0 then 16
       else config.MaxRetries (config.MQ c))
  ∧ config.NameServer (config.MQ (Validate ToUpper ParseRequestURI_ok c).2)
    = config.NameServer (config.MQ c)
  ∧ config.AccessKey (config.MQ (Validate ToUpper ParseRequestURI_ok c).2)
    = config.AccessKey (config.MQ c)
  ∧ config.SecretKey (config.MQ (Validate ToUpper ParseRequestURI_ok c).2)
    = config.SecretKey (config.MQ c)
  ∧ config.GroupName (config.MQ (Validate ToUpper ParseRequestURI_ok c).2)
    = config.GroupName (config.MQ c)
  ∧ config.Notifications (Validate ToUpper ParseRequestURI_ok c).2
    = config.Notifications c.
Proof.
  intros [-> H0]%Validate_accepted_config.
  destruct (Z.eqb_spec (config.MaxRetries (config.MQ c)) 0);
    cbn; repeat split; lia.
Qed.

(** X17: validating twice is validating once: a configuration that
    [Validate] accepted and left behind is accepted again and left as it
    is. *)
Theorem Validate_idempotent c :
  (Validate ToUpper ParseRequestURI_ok c).1 = None →
  Validate ToUpper ParseRequestURI_ok
    (Validate ToUpper ParseRequestURI_ok c).2
  = (None, (Validate ToUpper ParseRequestURI_ok c).2).
Proof.
  intros Hok. pose proof (Validate_accepted_config c Hok) as [Hc H0].
  apply Validate_accepted in Hok as (Hns & Hgn & _ & Hne & Hrules).
  set (c' := (Validate ToUpper ParseRequestURI_ok c).2) in *.
  assert (Hok' : (Validate ToUpper ParseRequestURI_ok c').1 = None).
  { apply Validate_accepted. rewrite Hc.
    by destruct (Z.eqb_spec (config.MaxRetries (config.MQ c)) 0). }
  pose proof (Validate_accepted_config c' Hok') as [Hc' _].
  rewrite (surjective_pairing (Validate ToUpper ParseRequestURI_ok c')).
  rewrite Hok', Hc'. f_equal.
  assert ((config.MaxRetries (config.MQ c') =? 0) = false) as ->; [|done].
  apply Z.eqb_neq. rewrite Hc.
  destruct (Z.eqb_spec (config.MaxRetries (config.MQ c)) 0); cbn; lia.
Qed.

(** X18: an error of [Validate] about a rule names the first rule that
    fails a check: the index is within the list, the rule at the index is
    not in order, and all rules before it are. *)
Theorem Validate_reports_first_bad_rule c (e : ConfigError) (i : nat) :
  (Validate ToUpper ParseRequestURI_ok c).1 = Some e →
  error_index e = Some i →
  ∃ n, config.Notifications c !! i = Some n
       ∧ ¬ rule_ok ToUpper ParseRequestURI_ok n
       ∧ Forall (rule_ok ToUpper ParseRequestURI_ok)
           (take i (config.Notifications c)).
Proof.
  rewrite Validate_unfold.
  destruct (String.eqb _ ""); [by intros [= <-]|].
  destruct (String.eqb _ ""); [by intros [= <-]|].
  destruct (_ <? 0); [by intros [= <-]|]. cbn [fst].
  destruct (config.Notifications c) as [|n0 rules] eqn:Hr;
    [by intros [= <-]|].
  intros (j & n & Hidx & Hj & Hbad & Hgood)%check_rules_Some Hi.
  rewrite Hidx in Hi. injection Hi as <-. by exists n.
Qed.

(** X19: [LoadConfig] hands out validated configurations only: what it
    returns passes [Validate] unchanged, and its [MaxRetries] is at least
    1. *)
Theorem LoadConfig_validated
    (ReadFile : string → option (list Byte.byte))
    (Unmarshal : list Byte.byte → option config.Config)
    (path : string) c :
  LoadConfig ToUpper ParseRequestURI_ok ReadFile Unmarshal path = inr c →
  Validate ToUpper ParseRequestURI_ok c = (None, c)
  ∧ 1 ≤ config.MaxRetries (config.MQ c)
  ∧ config.Notifications c ≠ []
  ∧ Forall (rule_ok ToUpper ParseRequestURI_ok) (config.Notifications c).
Proof.
  unfold LoadConfig.
  destruct (ReadFile path) as [bytes|]; [|done].
  destruct (Unmarshal bytes) as [c0|]; [|done].
  destruct (Validate ToUpper ParseRequestURI_ok c0) as [[e|] c'] eqn:Hv;
    [done|].
  intros [= <-].
  assert (Hok : (Validate ToUpper ParseRequestURI_ok c0).1 = None)
    by by rewrite Hv.
  pose proof (Validate_accepted_config c0 Hok) as [Hc H0].
  rewrite Hv in Hc. cbn [snd] in Hc.
  apply Validate_accepted in Hok as (Hns & Hgn & _ & Hne & Hrules).
  assert (Hok' : (Validate ToUpper ParseRequestURI_ok c').1 = None).
  { apply Validate_accepted. rewrite Hc.
    by destruct (Z.eqb_spec (config.MaxRetries (config.MQ c0)) 0). }
  pose proof (Validate_accepted_config c' Hok') as [Hc' _].
  assert (Hmax : 1 ≤ config.MaxRetries (config.MQ c')).
  { rewrite Hc.
    destruct (Z.eqb_spec (config.MaxRetries (config.MQ c0)) 0); cbn; lia. }
  repeat split.
  - rewrite (surjective_pairing (Validate ToUpper ParseRequestURI_ok c')).
    rewrite Hok', Hc'. f_equal.
    by rewrite (proj2 (Z.eqb_neq _ _)) by lia.
  - done.
  - rewrite Hc. by destruct (_ =? 0).
  - rewrite Hc. by destruct (_ =? 0).
Qed.

End ValidationFacts.

Lemma Validate_sets_default_only_witness :
  1 ≤ config.MaxRetries
        (config.MQ (Validate ascii_ToUpper sample_uri_ok
                      unset_retries_config).2)
  ∧ config.MaxRetries
      (config.MQ (Validate ascii_ToUpper sample_uri_ok
                    unset_retries_config).2)
    = (if config.MaxRetries (config.MQ unset_retries_config) =? 0 then 16
       else config.MaxRetries (config.MQ unset_retries_config))
  ∧ config.NameServer
      (config.MQ (Validate ascii_ToUpper sample_uri_ok
                    unset_retries_config).2)
    = config.NameServer (config.MQ unset_retries_config)
  ∧ config.AccessKey
      (config.MQ (Validate ascii_ToUpper sample_uri_ok
                    unset_retries_config).2)
    = config.AccessKey (config.MQ unset_retries_config)
  ∧ config.SecretKey
      (config.MQ (Validate ascii_ToUpper sample_uri_ok
                    unset_retries_config).2)
    = config.SecretKey (config.MQ unset_retries_config)
  ∧ config.GroupName
      (config.MQ (Validate ascii_ToUpper sample_uri_ok
                    unset_retries_config).2)
    = config.GroupName (config.MQ unset_retries_config)
  ∧ config.Notifications
      (Validate ascii_ToUpper sample_uri_ok unset_retries_config).2
    = config.Notifications unset_retries_config.
Proof.
  apply (Validate_sets_default_only ascii_ToUpper sample_uri_ok
           unset_retries_config).
  vm_compute. reflexivity.
Defined.

Lemma Validate_idempotent_witness :
  Validate ascii_ToUpper sample_uri_ok
    (Validate ascii_ToUpper sample_uri_ok unset_retries_config).2
  = (None, (Validate ascii_ToUpper sample_uri_ok unset_retries_config).2).
Proof.
  apply (Validate_idempotent ascii_ToUpper sample_uri_ok
           unset_retries_config).
  vm_compute. reflexivity.
Defined.

Lemma Validate_reports_first_bad_rule_witness :
  ∃ n,
    config.Notifications
      {| config.MQ := config.MQ sample_config;
         config.Notifications :=
           [sample_rule;
            {| config.EventType := "refund"; config.QueueName := "";
               config.Method := "POST"; config.URL := "";
               config.Headers := ∅; config.Body := ∅ |};
            payment_rule] |} !! 1%nat = Some n
    ∧ ¬ rule_ok ascii_ToUpper sample_uri_ok n
    ∧ Forall (rule_ok ascii_ToUpper sample_uri_ok)
        (take 1
           (config.Notifications
              {| config.MQ := config.MQ sample_config;
                 config.Notifications :=
                   [sample_rule;
                    {| config.EventType := "refund"; config.QueueName := "";
                       config.Method := "POST"; config.URL := "";
                       config.Headers := ∅; config.Body := ∅ |};
                    payment_rule] |})).
Proof.
  apply (Validate_reports_first_bad_rule ascii_ToUpper sample_uri_ok
           {| config.MQ := config.MQ sample_config;
              config.Notifications :=
                [sample_rule;
                 {| config.EventType := "refund"; config.QueueName := "";
                    config.Method := "POST"; config.URL := "";
                    config.Headers := ∅; config.Body := ∅ |};
                 payment_rule] |}
           (QueueNameRequired 1) 1).
  - vm_compute. reflexivity.
  - reflexivity.
Defined.

Lemma LoadConfig_validated_witness :
  Validate ascii_ToUpper sample_uri_ok
    (with_default_retries unset_retries_config)
  = (None, with_default_retries unset_retries_config)
  ∧ 1 ≤ config.MaxRetries
          (config.MQ (with_default_retries unset_retries_config))
  ∧ config.Notifications (with_default_retries unset_retries_config) ≠ []
  ∧ Forall (rule_ok ascii_ToUpper sample_uri_ok)
      (config.Notifications (with_default_retries unset_retries_config)).
Proof.
  apply (LoadConfig_validated ascii_ToUpper sample_uri_ok
           (λ _, Some []) (λ _, Some unset_retries_config) "config.json"
           (with_default_retries unset_retries_config)).
  vm_compute. reflexivity.
Defined.

(** X20: with a configuration that [Validate] accepted, messages that are
    delivered for the first time, with a redelivery count of 0, are never
    sent to a dead-letter topic. *)
Theorem validated_first_delivery_not_dead_lettered
    {Env : Type} `{!Collaborators Env}
    (ToUpper : string → string) (ParseRequestURI_ok : string → bool)
    (c : config.Config) (msgs : list primitive.MessageExt) (w : World Env) :
  (Validate ToUpper ParseRequestURI_ok c).1 = None →
  Forall (λ msg, primitive.ReconsumeTimes msg = 0) msgs →
  dlq_sends
    (new_effects w
       (HandleMessage (Validate ToUpper ParseRequestURI_ok c).2 msgs w).2)
  = 0%nat.
Proof.
  intros Hok Hfirst.
  pose proof (Validate_accepted_config _ _ c Hok) as [Hc H0].
  set (c' := (Validate ToUpper ParseRequestURI_ok c).2) in *.
  assert (Hmax : 1 ≤ config.MaxRetries (config.MQ c')).
  { rewrite Hc.
    destruct (Z.eqb_spec (config.MaxRetries (config.MQ c)) 0); cbn; lia. }
  destruct (HandleMessage_run c' msgs w) as (added & Ht & _ & _ & _ & Hz & _).
  unfold new_effects. rewrite Ht, drop_app_length. apply Hz.
  eapply Forall_impl; [exact Hfirst|]. cbn. intros msg ->. lia.
Qed.

Lemma validated_first_delivery_not_dead_lettered_witness :
  dlq_sends
    (new_effects (world [Response 503 "busy"] false)
       (HandleMessage
          (Validate ascii_ToUpper sample_uri_ok unset_retries_config).2
          [message "registration_queue" "{registration" 0]
          (world [Response 503 "busy"] false)).2)
  = 0%nat.
Proof.
  apply (validated_first_delivery_not_dead_lettered ascii_ToUpper
           sample_uri_ok unset_retries_config
           [message "registration_queue" "{registration" 0]
           (world [Response 503 "busy"] false)).
  - vm_compute. reflexivity.
  - repeat constructor.
Defined.

(** ** Starting the worker *)

Section LifecycleFacts.

Context {C : Type} `{!ConsumerClient C}.

Implicit Types (s : C * list ConsumerCall) (topics : gmap string bool).

Lemma subscribed_topics_cons (topic : string) (err : option string)
    (t : list ConsumerCall) :
  subscribed_topics (Subscribed topic err :: t) = topic :: subscribed_topics t.
Proof. done. Qed.

(** The loop of [Start]: it only subscribes, to names it has not seen, each
    the queue name of a rule; when it ends without error every rule is
    covered, and an error is that of the last call. *)
Lemma subscribeAll_run (rules : list config.NotificationConfig) :
  ∀ topics s, ∃ added,
    (subscribeAll rules topics s).2.2 = s.2 ++ added
    ∧ starts added = 0%nat
    ∧ NoDup (subscribed_topics added)
    ∧ (∀ t, t ∈ subscribed_topics added →
            topics !! t = None
            ∧ ∃ n, n ∈ rules ∧ config.QueueName n = t)
    ∧ match (subscribeAll rules topics s).1 with
      | None =>
          (∀ n, n ∈ rules →
                is_Some (topics !! config.QueueName n)
                ∨ config.QueueName n ∈ subscribed_topics added)
          ∧ Forall (λ c, ∃ t, c = Subscribed t None) added
      | Some e =>
          ∃ t cause, e = SubscribeFailed t cause
                     ∧ last added = Some (Subscribed t (Some cause))
      end.
Proof.
  induction rules as [|n rest IH]; intros topics s.
  { exists []. cbn. rewrite app_nil_r.
    split; [done|]. split; [done|]. split; [constructor|].
    split; [by intros t ?%elem_of_nil|].
    split; [by intros m ?%elem_of_nil|constructor]. }
  cbn [subscribeAll].
  destruct (topics !! config.QueueName n) as [b|] eqn:Hseen.
  { destruct (IH topics s) as (added & Ht & Hs & Hnd & Hin & Hres).
    exists added.
    split; [done|]. split; [done|]. split; [done|]. split.
    - intros t Hmem. destruct (Hin t Hmem) as (Hnone & m & Hm & Hq).
      split; [done|]. exists m. split; [by right|done].
    - destruct (subscribeAll rest topics s).1; [done|].
      destruct Hres as [Hcov Hall]. split; [|done].
      intros m [->|Hm]%elem_of_cons; [left; by rewrite Hseen|by apply Hcov]. }
  destruct (consumer_Subscribe (config.QueueName n) s.1) as [[cause|] c'].
  { exists [Subscribed (config.QueueName n) (Some cause)]. cbn.
    split; [done|]. split; [done|]. split; [apply NoDup_singleton|].
    split.
    - intros t ->%list_elem_of_singleton. split; [done|].
      exists n. by split; [left|].
    - by exists (config.QueueName n), cause. }
  destruct (IH (<[config.QueueName n := true]> topics)
              (c', s.2 ++ [Subscribed (config.QueueName n) None]))
    as (added & Ht & Hs & Hnd & Hin & Hres).
  exists (Subscribed (config.QueueName n) None :: added).
  rewrite Ht. cbn [snd]. rewrite <- app_assoc. cbn [app].
  rewrite subscribed_topics_cons.
  split; [done|]. split; [done|]. split.
  { constructor; [|done]. intros (Hnone & _)%Hin.
    by rewrite lookup_insert_eq in Hnone. }
  split.
  { intros t [->|Ht']%elem_of_cons.
    - split; [done|]. exists n. by split; [left|].
    - destruct (Hin t Ht') as (Hnone & m & Hm & Hq).
      apply lookup_insert_None in Hnone as [Hnone _].
      split; [done|]. exists m. by split; [right|]. }
  destruct (subscribeAll rest _ _).1 as [e|].
  { destruct Hres as (t & cause & -> & Hlast). exists t, cause.
    split; [done|]. destruct added; [done|]. by rewrite last_cons_cons. }
  destruct Hres as [Hcov Hall]. split.
  - intros m [->|Hm]%elem_of_cons; [right; by left|].
    destruct (Hcov m Hm) as [Hsome|Hsub]; [|right; by right].
    destruct (decide (config.QueueName n = config.QueueName m)) as [Heq|Hne].
    + right. rewrite <- Heq. by left.
    + left. by rewrite lookup_insert_ne in Hsome.
  - constructor; [by eexists|done].
Qed.

Lemma starts_app (t1 t2 : list ConsumerCall) :
  starts (t1 ++ t2) = (starts t1 + starts t2)%nat.
Proof. unfold starts. by rewrite List.filter_app, length_app. Qed.

(** X21: [Start] subscribes to each queue name at most once, and only to
    queue names of rules, whether it succeeds or not. *)
Theorem Start_subscribes_once (cfg : config.Config) s :
  NoDup (subscribed_topics (drop (length s.2) (Start cfg s).2.2))
  ∧ ∀ t, t ∈ subscribed_topics (drop (length s.2) (Start cfg s).2.2) →
         ∃ n, n ∈ config.Notifications cfg ∧ config.QueueName n = t.
Proof.
  unfold Start.
  destruct (subscribeAll_run (config.Notifications cfg) ∅ s)
    as (added & Ht & _ & Hnd & Hin & _).
  destruct (subscribeAll (config.Notifications cfg) ∅ s) as [[e|] s'];
    cbn [fst snd] in *.
  - rewrite Ht, drop_app_length. split; [done|]. intros t Hmem.
    by destruct (Hin t Hmem).
  - destruct (consumer_Start s'.1) as [err c']. cbn [snd].
    rewrite Ht, <- app_assoc, drop_app_length.
    unfold subscribed_topics in *. rewrite omap_app. cbn. rewrite app_nil_r.
    split; [done|]. intros t Hmem. by destruct (Hin t Hmem).
Qed.

(** X22: when [Start] returns no error, the queue name of every rule has
    been subscribed to, every subscription succeeded, and the consumer was
    started once, successfully, after the last subscription. *)
Theorem Start_success (cfg : config.Config) s :
  (Start cfg s).1 = None →
  (∀ n, n ∈ config.Notifications cfg →
        config.QueueName n
        ∈ subscribed_topics (drop (length s.2) (Start cfg s).2.2))
  ∧ (∀ t err, Subscribed t err ∈ drop (length s.2) (Start cfg s).2.2 →
              err = None)
  ∧ last (drop (length s.2) (Start cfg s).2.2) = Some (Started None)
  ∧ starts (drop (length s.2) (Start cfg s).2.2) = 1%nat.
Proof.
  unfold Start.
  destruct (subscribeAll_run (config.Notifications cfg) ∅ s)
    as (added & Ht & Hs & _ & _ & Hres).
  destruct (subscribeAll (config.Notifications cfg) ∅ s) as [[e|] s'];
    cbn [fst snd] in *; [done|].
  destruct (consumer_Start s'.1) as [[cause|] c']; cbn [fst snd]; [done|].
  intros _. rewrite Ht, <- app_assoc, drop_app_length.
  destruct Hres as [Hcov Hall].
  unfold subscribed_topics in *. rewrite omap_app. cbn. rewrite app_nil_r.
  repeat split.
  - intros n Hn. destruct (Hcov n Hn) as [[? Hsome]|]; [|done].
    by rewrite lookup_empty in Hsome.
  - intros t err [Hin|Hin]%elem_of_app.
    + rewrite Forall_forall in Hall. destruct (Hall _ Hin) as [? [= _ ->]].
      done.
    + by apply list_elem_of_singleton in Hin.
  - by rewrite last_snoc.
  - rewrite starts_app, Hs. done.
Qed.

(** X23: when a subscription fails, [Start] returns the error for that
    topic at once: the failed call is the last one, and the consumer is
    not started. *)
Theorem Start_subscribe_failure (cfg : config.Config) s
    (topic cause : string) :
  (Start cfg s).1 = Some (SubscribeFailed topic cause) →
  last (drop (length s.2) (Start cfg s).2.2)
  = Some (Subscribed topic (Some cause))
  ∧ starts (drop (length s.2) (Start cfg s).2.2) = 0%nat.
Proof.
  unfold Start.
  destruct (subscribeAll_run (config.Notifications cfg) ∅ s)
    as (added & Ht & Hs & _ & _ & Hres).
  destruct (subscribeAll (config.Notifications cfg) ∅ s) as [[e|] s'];
    cbn [fst snd] in *.
  - intros [= ->]. rewrite Ht, drop_app_length.
    destruct Hres as (t & c & [= <- <-] & Hlast). done.
  - destruct (consumer_Start s'.1) as [[c|] c']; cbn [fst]; done.
Qed.

End LifecycleFacts.

Lemma Start_success_witness :
  (∀ n, n ∈ config.Notifications unset_retries_config →
        config.QueueName n
        ∈ subscribed_topics
            (drop (length (consumer_refusing []).2)
               (Start unset_retries_config (consumer_refusing [])).2.2))
  ∧ (∀ t err,
       Subscribed t err
       ∈ drop (length (consumer_refusing []).2)
           (Start unset_retries_config (consumer_refusing [])).2.2 →
       err = None)
  ∧ last (drop (length (consumer_refusing []).2)
            (Start unset_retries_config (consumer_refusing [])).2.2)
    = Some (Started None)
  ∧ starts (drop (length (consumer_refusing []).2)
              (Start unset_retries_config (consumer_refusing [])).2.2)
    = 1%nat.
Proof.
  apply (Start_success unset_retries_config (consumer_refusing [])).
  vm_compute. reflexivity.
Defined.

Lemma Start_subscribe_failure_witness :
  last (drop (length (consumer_refusing ["refund_queue"]).2)
          (Start unset_retries_config
             (consumer_refusing ["refund_queue"])).2.2)
  = Some (Subscribed "refund_queue" (Some "no such topic"))
  ∧ starts (drop (length (consumer_refusing ["refund_queue"]).2)
              (Start unset_retries_config
                 (consumer_refusing ["refund_queue"])).2.2)
    = 0%nat.
Proof.
  apply (Start_subscribe_failure unset_retries_config
           (consumer_refusing ["refund_queue"])
           "refund_queue" "no such topic").
  vm_compute. reflexivity.
Defined.

(** The worker subscribes to two topics for the three sample rules, the
    first two of which share a queue. *)
Example Start_three_rules_two_topics :
  Start unset_retries_config (consumer_refusing [])
  = (None,
     ([], [Subscribed "registration_queue" None;
           Subscribed "refund_queue" None; Started None])).
Proof. vm_compute. reflexivity. Qed.

(** ** The ingestion endpoint *)

Section IngestionFacts.

Context {P : Type} `{!IngestCollaborators P}.

Variable cfg : config.Config.

Implicit Types (r : ApiRequest).
Implicit Types (s : P * list (primitive.Message * option string)).

(** The two ways a request can go: it is turned down, with 405 or 400 and
    no change of state, or its event is sent to the queue of its rule. *)
Lemma handleEventIngestion_cases r s :
  ((handleEventIngestion cfg r s).2 = s
   ∧ (ApiStatus (handleEventIngestion cfg r s).1 = 405
      ∨ ApiStatus (handleEventIngestion cfg r s).1 = 400)
   ∧ ¬ (ApiMethod r = "POST"
        ∧ ∃ evt n, decode_event (ApiBody r) = Some evt
                   ∧ event.Typ evt ≠ ""
                   ∧ config.FindNotificationConfig cfg (event.Typ evt)
                     = Some n))
  ∨ ∃ evt n err,
      ApiMethod r = "POST"
      ∧ decode_event (ApiBody r) = Some evt
      ∧ event.Typ evt ≠ ""
      ∧ config.FindNotificationConfig cfg (event.Typ evt) = Some n
      ∧ (handleEventIngestion cfg r s).2.2
        = s.2 ++ [({| primitive.Topic := config.QueueName n;
                      primitive.Body := marshal_event (stamped evt s.1);
                      primitive.Properties := ∅ |}, err)]
      ∧ ApiStatus (handleEventIngestion cfg r s).1
        = (if is_nil err then 202 else 500).
Proof.
  unfold handleEventIngestion.
  destruct (String.eqb_spec (ApiMethod r) "POST") as [Hpost|Hpost];
    cbn [negb].
  2: { left. split; [done|]. split; [by left|]. by intros [? _]. }
  destruct (decode_event (ApiBody r)) as [evt|] eqn:Hdec.
  2: { left. split; [done|]. split; [by right|].
       by intros (_ & ? & ? & ? & _). }
  destruct (String.eqb_spec (event.Typ evt) "") as [Htyp|Htyp].
  { left. split; [done|]. split; [by right|].
    intros (_ & evt' & n & [= <-] & ? & _). done. }
  destruct (config.FindNotificationConfig cfg (event.Typ evt))
    as [n|] eqn:Hfind.
  2: { left. split; [done|]. split; [by right|].
       intros (_ & evt' & n & [= <-] & _ & ?). congruence. }
  right. unfold SendMessage.
  destruct (ingest_SendSync _ s.1) as [err p'] eqn:Hsend.
  exists evt, n, err. by destruct err.
Qed.

(** X24: the status of the answer tells what happened to the event: 202
    means that one message was sent and the broker took it, 500 that one
    message was sent and the broker refused it, and with 400 or 405
    nothing was sent and the state is untouched; there is no other
    status. *)
Theorem ingestion_status_reflects_publish r s :
  (ApiStatus (handleEventIngestion cfg r s).1 = 202
   ∧ ∃ msg, drop (length s.2) (handleEventIngestion cfg r s).2.2
            = [(msg, None)])
  ∨ (ApiStatus (handleEventIngestion cfg r s).1 = 500
     ∧ ∃ msg cause, drop (length s.2) (handleEventIngestion cfg r s).2.2
                    = [(msg, Some cause)])
  ∨ ((ApiStatus (handleEventIngestion cfg r s).1 = 400
      ∨ ApiStatus (handleEventIngestion cfg r s).1 = 405)
     ∧ (handleEventIngestion cfg r s).2 = s).
Proof.
  destruct (handleEventIngestion_cases r s)
    as [(Hs & Hst & _)|(evt & n & err & _ & _ & _ & _ & Ht & Hst)].
  - right. right. split; [tauto|done].
  - rewrite Ht, drop_app_length, Hst.
    destruct err as [cause|]; [right; left|left]; eauto.
Qed.

(** X25: a message the endpoint sends comes from a POST whose body decoded
    to an event with a type that has a rule: it goes to the queue of the
    first rule of that type, carries the encoded event, time-stamped if it
    was not, and has no properties. *)
Theorem ingestion_published_message r s (msg : primitive.Message)
    (err : option string) :
  (msg, err) ∈ drop (length s.2) (handleEventIngestion cfg r s).2.2 →
  ApiMethod r = "POST"
  ∧ ∃ evt n,
      decode_event (ApiBody r) = Some evt
      ∧ event.Typ evt ≠ ""
      ∧ config.FindNotificationConfig cfg (event.Typ evt) = Some n
      ∧ msg = {| primitive.Topic := config.QueueName n;
                 primitive.Body := marshal_event (stamped evt s.1);
                 primitive.Properties := ∅ |}
      ∧ event.Typ (stamped evt s.1) = event.Typ evt
      ∧ event.Data (stamped evt s.1) = event.Data evt.
Proof.
  destruct (handleEventIngestion_cases r s)
    as [(Hs & _)|(evt & n & err' & Hpost & Hdec & Htyp & Hfind & Ht & _)].
  - rewrite Hs, drop_all. by intros ?%elem_of_nil.
  - rewrite Ht, drop_app_length. intros [= -> ->]%list_elem_of_singleton.
    split; [done|]. exists evt, n. repeat split; try done.
    all: unfold stamped; by destruct (timestamp_IsZero _).
Qed.

(** X26: a POST whose body decodes to an event with a type that has a rule
    is always sent on, once, and answered with 202 or 500 as the broker
    takes the message or not. *)
Theorem ingestion_sends_routable r s (evt : event.Event)
    (n : config.NotificationConfig) :
  ApiMethod r = "POST" →
  decode_event (ApiBody r) = Some evt →
  event.Typ evt ≠ "" →
  config.FindNotificationConfig cfg (event.Typ evt) = Some n →
  ∃ err,
    drop (length s.2) (handleEventIngestion cfg r s).2.2
    = [({| primitive.Topic := config.QueueName n;
           primitive.Body := marshal_event (stamped evt s.1);
           primitive.Properties := ∅ |}, err)]
    ∧ ApiStatus (handleEventIngestion cfg r s).1 = (if is_nil err then 202 else 500).
Proof.
  intros Hpost Hdec Htyp Hfind.
  destruct (handleEventIngestion_cases r s)
    as [(_ & _ & Hnot)|(evt' & n' & err & _ & Hdec' & _ & Hfind' & Ht & Hst)].
  - destruct Hnot. split; [done|]. by exists evt, n.
  - rewrite Hdec in Hdec'. injection Hdec' as <-.
    rewrite Hfind in Hfind'. injection Hfind' as <-.
    exists err. by rewrite Ht, drop_app_length.
Qed.

End IngestionFacts.

Lemma ingestion_published_message_witness :
  ApiMethod (post "{payment") = "POST"
  ∧ ∃ evt n,
      decode_event (ApiBody (post "{payment")) = Some evt
      ∧ event.Typ evt ≠ ""
      ∧ config.FindNotificationConfig unset_retries_config (event.Typ evt)
        = Some n
      ∧ {| primitive.Topic := "registration_queue";
           primitive.Body := list_byte_of_string "{payment";
           primitive.Properties := ∅ |}
        = {| primitive.Topic := config.QueueName n;
             primitive.Body := marshal_event (stamped evt (api_state true).1);
             primitive.Properties := ∅ |}
      ∧ event.Typ (stamped evt (api_state true).1) = event.Typ evt
      ∧ event.Data (stamped evt (api_state true).1) = event.Data evt.
Proof.
  apply (ingestion_published_message unset_retries_config
           (post "{payment") (api_state true)
           {| primitive.Topic := "registration_queue";
              primitive.Body := list_byte_of_string "{payment";
              primitive.Properties := ∅ |} None).
  vm_compute. apply list_elem_of_singleton. reflexivity.
Defined.

Lemma ingestion_sends_routable_witness :
  ∃ err,
    drop (length (api_state false).2)
      (handleEventIngestion unset_retries_config (post "{refund")
         (api_state false)).2.2
    = [({| primitive.Topic := config.QueueName refund_rule;
           primitive.Body :=
             marshal_event
               (stamped (default sample_event
                           (scripted_Unmarshal (ApiBody (post "{refund"))))
                  (api_state false).1);
           primitive.Properties := ∅ |}, err)]
    ∧ ApiStatus (handleEventIngestion unset_retries_config (post "{refund")
                   (api_state false)).1
      = (if is_nil err then 202 else 500).
Proof.
  apply (ingestion_sends_routable unset_retries_config (post "{refund")
           (api_state false)
           (default sample_event
              (scripted_Unmarshal (ApiBody (post "{refund"))))
           refund_rule).
  - reflexivity.
  - reflexivity.
  - vm_compute. discriminate.
  - vm_compute. reflexivity.
Defined.

(** ** The two services together *)

Lemma Start_covers_rules {C : Type} `{!ConsumerClient C}
    (cfg : config.Config) (s : C * list ConsumerCall)
    (n : config.NotificationConfig) :
  (Start cfg s).1 = None →
  n ∈ config.Notifications cfg →
  config.QueueName n
  ∈ subscribed_topics (drop (length s.2) (Start cfg s).2.2).
Proof.
  unfold Start.
  destruct (subscribeAll_run (config.Notifications cfg) ∅ s)
    as (added & Ht & _ & _ & _ & Hres).
  destruct (subscribeAll (config.Notifications cfg) ∅ s) as [[e|] s'];
    cbn [fst snd] in *; [done|].
  destruct (consumer_Start s'.1) as [[cause|] c']; cbn [fst snd]; [done|].
  intros _ Hn. rewrite Ht, <- app_assoc, drop_app_length.
  destruct Hres as [Hcov _].
  unfold subscribed_topics in *. rewrite omap_app. cbn. rewrite app_nil_r.
  destruct (Hcov n Hn) as [[? Hsome]|]; [|done].
  by rewrite lookup_empty in Hsome.
Qed.

(** X27: the API and the worker agree on the topics: with the same
    configuration, every message the endpoint sends goes to a topic the
    worker subscribed to when it started successfully. *)
Theorem published_topic_is_subscribed
    {P C : Type} `{!IngestCollaborators P} `{!ConsumerClient C}
    (cfg : config.Config) (r : ApiRequest)
    (s : P * list (primitive.Message * option string))
    (cs : C * list ConsumerCall)
    (msg : primitive.Message) (err : option string) :
  (Start cfg cs).1 = None →
  (msg, err) ∈ drop (length s.2) (handleEventIngestion cfg r s).2.2 →
  primitive.Topic msg
  ∈ subscribed_topics (drop (length cs.2) (Start cfg cs).2.2).
Proof.
  intros Hstart Hmsg.
  destruct (handleEventIngestion_cases cfg r s)
    as [(Hs & _)|(evt & n & err' & _ & _ & _ & Hfind & Ht & _)].
  - rewrite Hs, drop_all in Hmsg. by apply elem_of_nil in Hmsg.
  - rewrite Ht, drop_app_length in Hmsg.
    apply list_elem_of_singleton in Hmsg as [= -> ->]. cbn.
    apply Start_covers_rules; [done|].
    apply find_rule_Some in Hfind as (before & after & -> & _).
    apply elem_of_app. right. by left.
Qed.

Lemma published_topic_is_subscribed_witness :
  primitive.Topic
    {| primitive.Topic := "registration_queue";
       primitive.Body := list_byte_of_string "{payment";
       primitive.Properties := ∅ |}
  ∈ subscribed_topics
      (drop (length (consumer_refusing []).2)
         (Start unset_retries_config (consumer_refusing [])).2.2).
Proof.
  apply (published_topic_is_subscribed unset_retries_config
           (post "{payment") (api_state true) (consumer_refusing [])
           {| primitive.Topic := "registration_queue";
              primitive.Body := list_byte_of_string "{payment";
              primitive.Properties := ∅ |} None).
  - vm_compute. reflexivity.
  - vm_compute. apply list_elem_of_singleton. reflexivity.
Defined.
